(** * Sycamore: schema inference for an OpenSearch index, and the Limit transform

    A shallow embedding of
    - [sycamore/query/schema.py]: [OpenSearchSchema.to_schema] and
      [OpenSearchSchemaFetcher.get_schema];
    - [sycamore/transforms/basics.py]: [Limit.local_execute].

    Python values are a tagged union, [set[str]] is a [gset string], the
    [warnings] dictionary is a [gmap], insertion-ordered dictionaries whose
    order is observable are association lists, and the logger together with
    the [KeyError] that [get_schema] catches form a small writer/error monad. *)

From stdpp Require Import gmap strings list pretty.
From Stdlib Require Import ZArith Ascii String.

Open Scope string_scope.
Open Scope list_scope.
Open Scope nat_scope.

(** ** Python values *)

Module Py.

(** The values a JSON document decoded by the OpenSearch client can hold.
    A [float] is carried by the text [repr] prints for it (the shortest
    literal that reads back to the same binary64 number): the code below
    never computes with a float, it only asks for its type and its text. *)
#[local] Set Warnings "-register-all".
Inductive pyval : Type :=
  | VNone
  | VBool (b : bool)
  | VInt (n : Z)
  | VFloat (literal : string)
  | VStr (s : string)
  | VList (items : list pyval)
  | VDict (items : list (string * pyval)).

#[local] Set Warnings "+register-all".

(** [type(v)], restricted to the classes of the values above. *)
Inductive pytype : Type :=
  | TNoneType | TBool | TInt | TFloat | TStr | TList | TDict.

#[global] Instance pytype_eq_dec : EqDecision pytype.
Proof. solve_decision. Defined.

Definition type (v : pyval) : pytype :=
  match v with
  | VNone => TNoneType
  | VBool _ => TBool
  | VInt _ => TInt
  | VFloat _ => TFloat
  | VStr _ => TStr
  | VList _ => TList
  | VDict _ => TDict
  end.

(** [str(cls)] for a class object. *)
Definition str_type (t : pytype) : string :=
  match t with
  | TNoneType => "<class 'NoneType'>"
  | TBool => "<class 'bool'>"
  | TInt => "<class 'int'>"
  | TFloat => "<class 'float'>"
  | TStr => "<class 'str'>"
  | TList => "<class 'list'>"
  | TDict => "<class 'dict'>"
  end.

(** What an f-string prints for [sample_type : Optional[type]]. *)
Definition str_opt_type (t : option pytype) : string :=
  match t with
  | None => "None"
  | Some c => str_type c
  end.

(** *** [repr] of a string

    Characters are code points below 256.  The quote is the double quote
    exactly when the text has a single quote and no double quote; the quote
    and the backslash are escaped, tab, newline and carriage return have
    their letter escapes, and every other non-printable code point is
    written [\xhh]. *)

Definition hex_digit (d : N) : ascii :=
  ascii_of_N (if (d <? 10)%N then 48 + d else 87 + d)%N.

Definition hex_escape (c : ascii) : string :=
  let n := N_of_ascii c in
  String "\" (String "x" (String (hex_digit (n / 16)) (String (hex_digit (n mod 16)) ""))).

Definition printable (c : ascii) : bool :=
  let n := N_of_ascii c in
  ((32 <=? n) && (n <? 127) || (161 <=? n) && negb (n =? 173))%N.

Definition escape_char (quote c : ascii) : string :=
  if (Ascii.eqb c quote || Ascii.eqb c "\")%bool then String "\" (String c "")
  else if Ascii.eqb c "009" then "\t"
  else if Ascii.eqb c "010" then "\n"
  else if Ascii.eqb c "013" then "\r"
  else if printable c then String c ""
  else hex_escape c.

Fixpoint contains_char (c : ascii) (s : string) : bool :=
  match s with
  | EmptyString => false
  | String d s' => (Ascii.eqb c d || contains_char c s')%bool
  end.

Fixpoint escape_all (quote : ascii) (s : string) : string :=
  match s with
  | EmptyString => ""
  | String c s' => escape_char quote c +:+ escape_all quote s'
  end.

Definition double_quote : ascii := ascii_of_N 34.

Definition repr_str (s : string) : string :=
  let quote :=
    if (contains_char "'" s && negb (contains_char double_quote s))%bool
    then double_quote else "'"%char in
  String quote (escape_all quote s +:+ String quote "").

(** [", ".join(parts)] *)
Fixpoint join (sep : string) (parts : list string) : string :=
  match parts with
  | [] => ""
  | [p] => p
  | p :: rest => p +:+ sep +:+ join sep rest
  end.

(** *** [repr] and [str] of a value *)

Fixpoint repr (v : pyval) : string :=
  match v with
  | VNone => "None"
  | VBool true => "True"
  | VBool false => "False"
  | VInt n => pretty n
  | VFloat literal => literal
  | VStr s => repr_str s
  | VList items => "[" +:+ join ", " (map repr items) +:+ "]"
  | VDict items =>
      "{" +:+ join ", " (map (fun kv => repr_str (fst kv) +:+ ": " +:+ repr (snd kv)) items)
          +:+ "}"
  end.

Definition str (v : pyval) : string :=
  match v with
  | VStr s => s
  | _ => repr v
  end.

(** *** Insertion-ordered dictionaries with string keys

    [d[k] = v] keeps the position of a key that is already there and
    appends a new one; [d[k]] raises [KeyError] on a missing key, which is
    [None] here and turned into the exception by the caller. *)

Definition dict (V : Type) : Type := list (string * V).

Fixpoint getitem {V} (d : dict V) (k : string) : option V :=
  match d with
  | [] => None
  | (k', v) :: d' => if decide (k' = k) then Some v else getitem d' k
  end.

Fixpoint setitem {V} (d : dict V) (k : string) (v : V) : dict V :=
  match d with
  | [] => [(k, v)]
  | (k', v') :: d' =>
      if decide (k' = k) then (k', v) :: d' else (k', v') :: setitem d' k v
  end.

Definition keys {V} (d : dict V) : list string := map fst d.

(** [s.startswith(prefix)] and [s.endswith(suffix)] *)
Definition startswith (s prefix : string) : bool := String.prefix prefix s.

Definition endswith (s suffix : string) : bool :=
  let n := String.length s in
  let m := String.length suffix in
  ((m <=? n)%nat && String.eqb (substring (n - m) m s) suffix)%bool.

End Py.

Import Py.

(** ** The logger and the caught exception

    [logger.debug] and [logger.warning] only ever append a record, and the
    one exception [get_schema] handles is [KeyError]: a computation is the
    records it logged, in order, and either a value or the raised
    exception.  Records logged before a raise are kept. *)

Inductive level : Type := DEBUG | WARNING.

#[global] Instance level_eq_dec : EqDecision level.
Proof. solve_decision. Defined.

Record log_record : Type := LogRecord { levelname : level; message : string }.

Inductive result (A : Type) : Type :=
  | Ok (a : A)
  | KeyError.
Arguments Ok {A} a.
Arguments KeyError {A}.

Definition M (A : Type) : Type := list log_record * result A.

Definition ret {A} (a : A) : M A := ([], Ok a).

Definition raise_KeyError {A} : M A := ([], KeyError).

Definition bind {A B} (m : M A) (f : A -> M B) : M B :=
  match m with
  | (w, Ok a) => let '(w', r) := f a in ((w ++ w')%list, r)
  | (w, KeyError) => (w, KeyError)
  end.

Definition debug (msg : string) : M unit := ([LogRecord DEBUG msg], Ok tt).

Definition warning (msg : string) : M unit := ([LogRecord WARNING msg], Ok tt).

(** [try: body / except KeyError: handler] *)
Definition try_except {A} (body : M A) (handler : M A) : M A :=
  match body with
  | (w, Ok a) => (w, Ok a)
  | (w, KeyError) => let '(w', r) := handler in ((w ++ w')%list, r)
  end.

(** A dictionary subscript or a lookup that may raise [KeyError]. *)
Definition subscript {V} (d : dict V) (k : string) : M V :=
  match getitem d k with
  | Some v => ret v
  | None => raise_KeyError
  end.

Definition lift {A} (r : result A) : M A := ([], r).

Declare Scope monad_scope.
Delimit Scope monad_scope with monad.
Notation "x <- m ;; k" := (bind m (fun x => k))
  (at level 100, m at level 99, right associativity) : monad_scope.
Notation "m ;;; k" := (bind m (fun _ => k))
  (at level 100, right associativity) : monad_scope.
Open Scope monad_scope.

Definition logged {A} (m : M A) : list log_record := fst m.
Definition outcome {A} (m : M A) : result A := snd m.

(** ** [sycamore/query/schema.py] *)

(** Modelled from the spec: the class [SchemaField] of [sycamore.schema],
    which [schema.py] imports and subclasses; a schema entry has a name, a
    type, an optional description and an optional collection of examples.
    Optional attributes that are not given are [None]. *)
Record SchemaField : Type := mkSchemaField {
  name : string;
  field_type : string;
  description : option string;
  examples : option (list string)
}.

(** [class OpenSearchSchemaField(SchemaField)]: the same attributes, with
    [name] defaulting to ["default"]. *)
Definition OpenSearchSchemaField (field_type : string) (description : option string)
    (examples : option (list string)) : SchemaField :=
  mkSchemaField "default" field_type description examples.

(** Modelled from the spec: the class [Schema] of [sycamore.schema], the
    legacy representation, a list of named entries. *)
Record Schema : Type := mkSchema { schema_fields : list SchemaField }.

Record OpenSearchSchema : Type := mkOpenSearchSchema { fields : dict SchemaField }.

(** A [SchemaField] built from the attributes of [field], with the
    attribute [name] replaced by [field_name] (line 30). *)
Definition with_name (field : SchemaField) (field_name : string) : SchemaField :=
  mkSchemaField field_name (field_type field) (description field) (examples field).

(** [OpenSearchSchema.to_schema]: the loop appends one entry per item of
    [self.fields.items()]. *)
Definition to_schema (self : OpenSearchSchema) : Schema :=
  mkSchema
    (fold_left (fun acc item => acc ++ [with_name (snd item) (fst item)])%list
               (fields self) []).

Definition NUM_EXAMPLES : Z := 1000.
Definition NUM_EXAMPLE_VALUES : nat := 5.

(** The local variables of one pass of the [for key] loop. *)
Record locals : Type := Locals {
  samples : gset string;
  sample_type : option pytype;
  warnings : gmap string bool
}.

(** [samples: set[str] = set()], [sample_type = None], [warnings = {}] *)
Definition fresh : locals := Locals ∅ None ∅.

(** [samples.add(str(sample_value))] *)
Definition add_sample (sample_value : pyval) (l : locals) : locals :=
  Locals ({[ str sample_value ]} ∪ samples l) (sample_type l) (warnings l).

Definition conflict_message (key : string) (sample_type t : pytype) : string :=
  "Got multiple sample types for schema field"
  +:+ (" " +:+ key +:+ ": " +:+ str_type sample_type +:+ " and " +:+ str_type t
       +:+ ". Promoting to str.").

(** The body of [if sample_value is not None:], lines 94 to 125. *)
Definition observe (key : string) (sample_value : pyval) (l : locals) : M locals :=
  match sample_type l with
  | None =>
      ret (add_sample sample_value
             (Locals (samples l) (Some (type sample_value)) (warnings l)))
  | Some cur =>
      let t := type sample_value in
      if decide (cur = TInt ∧ t = TFloat) then
        ret (add_sample sample_value (Locals (samples l) (Some t) (warnings l)))
      else if decide (cur = TFloat ∧ t = TInt) then
        ret (add_sample sample_value l)
      else if decide (cur = TList ∧ t ≠ TList) then
        ret (add_sample (VList [sample_value]) l)
      else if decide (cur ≠ TList ∧ t = TList) then
        ret (add_sample sample_value
               (Locals (set_map (fun x => str (VList [VStr x])) (samples l))
                       (Some t) (warnings l)))
      else if decide (cur ≠ t) then
        w <- (if decide (warnings l !! key = None) then
                warning (conflict_message key cur t) ;;;
                ret (<[key := true]> (warnings l))
              else ret (warnings l)) ;;
        ret (add_sample sample_value
               (Locals (set_map (fun x => str (VStr x)) (samples l)) (Some TStr) w))
      else
        ret (add_sample sample_value l)
  end.

Section Fetcher.

(** [dotted_lookup] of [sycamore.utils.nested] is imported, not defined, by
    [schema.py]: it is a parameter, returning the value found ([VNone] for
    none) or raising [KeyError]. *)
Variable dotted_lookup : pyval -> string -> result pyval.

(** [for sample in random_sample:], lines 89 to 125, from the locals [l]. *)
Fixpoint walk (key : string) (random_sample : list (dict pyval)) (l : locals) : M locals :=
  match random_sample with
  | [] => ret l
  | sample :: rest =>
      if decide (NUM_EXAMPLE_VALUES ≤ size (samples l))%nat then ret l
      else
        source <- subscript sample "_source" ;;
        sample_value <- lift (dotted_lookup source key) ;;
        match sample_value with
        | VNone => walk key rest l
        | _ => l' <- observe key sample_value l ;; walk key rest l'
        end
  end.

(** One pass of [for key in one_schema["mappings"].keys():], lines 78 to 136,
    on the fields collected so far. *)
Definition visit_key (random_sample : list (dict pyval)) (key : string)
    (result_fields : dict SchemaField) : M (dict SchemaField) :=
  if endswith key ".keyword" then
    debug ("  Ignoring redundant exact match .keyword key " +:+ key) ;;;
    ret result_fields
  else if negb (startswith key "properties.") then
    debug ("  Ignoring non-properties key " +:+ key
           +:+ " as they are likely not from sycamore") ;;;
    ret result_fields
  else
    try_except
      (debug ("  Attempting to get samples for key " +:+ key) ;;;
       l <- walk key random_sample fresh ;;
       if decide (0 < size (samples l))%nat then
         debug ("  Got samples for " +:+ key +:+ " of type "
                +:+ str_opt_type (sample_type l)) ;;;
         ret (setitem result_fields key
                (OpenSearchSchemaField (str_opt_type (sample_type l)) None
                   (Some (elements (samples l)))))
       else
         debug ("  No samples for " +:+ key +:+ "; ignoring key") ;;;
         ret result_fields)
      (debug ("  Error retrieving samples for " +:+ key) ;;;
       ret result_fields).

Fixpoint visit_keys (random_sample : list (dict pyval)) (mapping_keys : list string)
    (result_fields : dict SchemaField) : M (dict SchemaField) :=
  match mapping_keys with
  | [] => ret result_fields
  | key :: rest =>
      result_fields' <- visit_key random_sample key result_fields ;;
      visit_keys random_sample rest result_fields'
  end.

Definition text_representation_field : SchemaField :=
  OpenSearchSchemaField "<class 'str'>"
    (Some "Can be assumed to have all other details") None.

(** [get_schema], from what its two calls to the collaborators returned:
    [mapping_keys] is [one_schema["mappings"].keys()] for the first index of
    the field mapping, [random_sample] the hits of the sampling query. *)
Definition get_schema (index : string) (mapping_keys : list string)
    (random_sample : list (dict pyval)) : M OpenSearchSchema :=
  debug ("Getting schema for index " +:+ index) ;;;
  result_fields <- visit_keys random_sample mapping_keys
                     [("text_representation", text_representation_field)] ;;
  ret (mkOpenSearchSchema result_fields).

End Fetcher.

(** [sample["_source"]] followed by [dotted_lookup]: the value the walk
    reads for [key] in one hit, or the [KeyError] either of them raises. *)
Definition resolved (dotted_lookup : pyval -> string -> result pyval)
    (key : string) (sample : dict pyval) : result pyval :=
  match getitem sample "_source" with
  | Some source => dotted_lookup source key
  | None => KeyError
  end.

(** [dotted.split(".")] *)
Fixpoint split_dots (dotted : string) : list string :=
  match dotted with
  | EmptyString => [""]
  | String c rest =>
      if Ascii.eqb c "." then "" :: split_dots rest
      else match split_dots rest with
           | segment :: segments => String c segment :: segments
           | [] => [String c ""]
           end
  end.

Fixpoint follow (raw : pyval) (segments : list string) : result pyval :=
  match segments with
  | [] => Ok raw
  | segment :: deeper =>
      match raw with
      | VDict items =>
          match getitem items segment, deeper with
          | Some v, _ => follow v deeper
          | None, [] => Ok VNone
          | None, _ :: _ => KeyError
          end
      | _ => KeyError
      end
  end.

(** Modelled from the spec: [dotted_lookup] of [sycamore.utils.nested], of
    which [schema.py] has only the import.  The path is followed segment by
    segment through nested mappings; a last segment that is absent is a
    lookup miss and resolves to null; an intermediate segment that is
    missing, or a value of the wrong shape on the way, is a structural
    failure. *)
Definition nested_lookup (raw : pyval) (dotted : string) : result pyval :=
  follow raw (split_dots dotted).

(** A hit of the sampling query whose [_source] is [source]. *)
Definition hit (source : pyval) : dict pyval :=
  [("_index", VStr "docs"); ("_source", source)].

(** The source [{"properties": {attribute: v}}]. *)
Definition property (attribute : string) (v : pyval) : pyval :=
  VDict [("properties", VDict [(attribute, v)])].

(** ** [sycamore/transforms/basics.py] *)

Section Limit.

(** [Document] and [MetadataDocument] come from [sycamore.data]; all
    [Limit.local_execute] asks of a document is
    [isinstance(doc, MetadataDocument)]. *)
Variable Document : Type.
Variable isinstance_MetadataDocument : Document -> bool.

(** The [for doc in all_docs:] loop of [local_execute], lines 52 to 57, from
    the current [filtered_docs] and [count]; [self._limit] is a Python
    [int]. *)
Fixpoint local_execute_loop (limit : Z) (all_docs filtered_docs : list Document)
    (count : Z) : list Document :=
  match all_docs with
  | [] => filtered_docs
  | doc :: rest =>
      if negb (isinstance_MetadataDocument doc) then
        let count := (count + 1)%Z in
        if (count >? limit)%Z then filtered_docs
        else local_execute_loop limit rest (filtered_docs ++ [doc])%list count
      else local_execute_loop limit rest filtered_docs count
  end.

Definition local_execute (limit : Z) (all_docs : list Document) : list Document :=
  local_execute_loop limit all_docs [] 0%Z.

End Limit.

Arguments local_execute_loop {Document}.
Arguments local_execute {Document}.

Section LimitExecute.

(** A row of the child's dataset, and [Document.deserialize(doc["doc"])] on
    it: [ray] and [sycamore.data] are imported, not defined, by
    [basics.py]. *)
Variable Row : Type.
Variable Document : Type.
Variable deserialize : Row -> Document.
Variable isinstance_MetadataDocument : Document -> bool.

(** The [for doc in dataset.iter_rows():] loop of [Limit.execute], lines 38
    to 44, from the current [rayDocs] and [count]. *)
Fixpoint execute_loop (limit : Z) (rows rayDocs : list Row) (count : Z) : list Row :=
  match rows with
  | [] => rayDocs
  | doc :: rest =>
      let deser_doc := deserialize doc in
      if negb (isinstance_MetadataDocument deser_doc) then
        let count := (count + 1)%Z in
        if (count >? limit)%Z then rayDocs
        else execute_loop limit rest (rayDocs ++ [doc])%list count
      else execute_loop limit rest rayDocs count
  end.

(** [Limit.execute] on the rows of [self.child().execute()]: the items it
    hands to [ray.data.from_items]. *)
Definition execute (limit : Z) (rows : list Row) : list Row :=
  execute_loop limit rows [] 0%Z.

End LimitExecute.

Arguments execute_loop {Row Document}.
Arguments execute {Row Document}.

Section Filter.

Variable Document : Type.

(** The function [Filter.__init__] hands to [MapBatch], line 86: the
    comprehension keeps, in order, the documents of the batch on which [f]
    answers true. *)
Definition filter_batch (f : Document -> bool) (docs : list Document) : list Document :=
  fold_left (fun kept d => if f d then kept ++ [d] else kept)%list docs [].

End Filter.

Arguments filter_batch {Document}.

(** ** Notions the statements below use *)

Definition is_none (v : pyval) : bool :=
  match v with VNone => true | _ => false end.

(** A key passes the two tests at the top of the [for key] loop. *)
Definition eligible (key : string) : bool :=
  negb (endswith key ".keyword") && startswith key "properties.".

(** The entry [get_schema] stores for a key whose walk ended with the
    locals [l]. *)
Definition sampled_field (l : locals) : SchemaField :=
  OpenSearchSchemaField (str_opt_type (sample_type l)) None (Some (elements (samples l))).

(** What the walk of one key contributes: an entry when it ends without
    [KeyError] and with at least one example, nothing otherwise. *)
Definition contribution (dotted_lookup : pyval -> string -> result pyval)
    (random_sample : list (dict pyval)) (key : string) : option SchemaField :=
  match outcome (walk dotted_lookup key random_sample fresh) with
  | Ok l => if decide (0 < size (samples l)) then Some (sampled_field l) else None
  | KeyError => None
  end.

(** Two sample types disagree outside the two recognised pairs,
    integer/float and list/non-list. *)
Definition conflicting (cur t : pytype) : Prop :=
  cur ≠ t ∧ cur ≠ TList ∧ t ≠ TList
  ∧ ¬ (cur = TInt ∧ t = TFloat) ∧ ¬ (cur = TFloat ∧ t = TInt).

Definition count_warnings (records : list log_record) : nat :=
  List.length (List.filter (fun r => bool_decide (levelname r = WARNING)) records).

(** 1 when the [warnings] dictionary already holds [key], else 0. *)
Definition warned (key : string) (l : locals) : nat :=
  match warnings l !! key with Some _ => 1 | None => 0 end.

(** What one pass of the [for key] loop does to the collected fields. *)
Definition record_key (dotted_lookup : pyval -> string -> result pyval)
    (random_sample : list (dict pyval)) (result_fields : dict SchemaField)
    (key : string) : dict SchemaField :=
  if eligible key then
    match contribution dotted_lookup random_sample key with
    | Some field => setitem result_fields key field
    | None => result_fields
    end
  else result_fields.

(** The records one pass of the [for key] loop logs. *)
Definition key_log (dotted_lookup : pyval -> string -> result pyval)
    (random_sample : list (dict pyval)) (key : string) : list log_record :=
  logged (visit_key dotted_lookup random_sample key []).

(** [result.fields] as [get_schema] first builds it, before any key. *)
Definition seed : dict SchemaField :=
  [("text_representation", text_representation_field)].

(** The sample resolves [key] to a value that is not null. *)
Definition has_value (dotted_lookup : pyval -> string -> result pyval)
    (key : string) (sample : dict pyval) : bool :=
  match resolved dotted_lookup key sample with
  | Ok v => negb (is_none v)
  | KeyError => false
  end.

(** The order in which the promotion table moves a type: a type widens to
    itself, [int] to [float], every type but [list] to [str], and every type
    to [list]. *)
Definition widens (cur new : pytype) : bool :=
  bool_decide (cur = new)
  || bool_decide (new = TList)
  || (bool_decide (new = TStr) && negb (bool_decide (cur = TList)))
  || (bool_decide (cur = TInt) && bool_decide (new = TFloat)).

(** The same for [sample_type], which starts unset. *)
Definition widens_opt (cur new : option pytype) : bool :=
  match cur, new with
  | None, _ => true
  | Some _, None => false
  | Some c, Some n => widens c n
  end.

(** The non-null values the samples resolve [key] to, in order, skipping
    the samples whose lookup raises. *)
Definition values (dotted_lookup : pyval -> string -> result pyval)
    (key : string) (random_sample : list (dict pyval)) : list pyval :=
  omap (fun sample =>
          match resolved dotted_lookup key sample with
          | Ok v => if is_none v then None else Some v
          | KeyError => None
          end) random_sample.

(** The text of a list. *)
Definition list_text (x : string) : Prop := ∃ body, x = "[" +:+ body +:+ "]".

(** What holds of the locals all along a walk: while the type is unset
    there is no example; the type is never that of [None]; under type [list]
    every example is the text of a list. *)
Definition well_typed (l : locals) : Prop :=
  (sample_type l = None -> samples l = ∅)
  ∧ sample_type l ≠ Some TNoneType
  ∧ (sample_type l = Some TList -> ∀ x, x ∈ samples l -> list_text x).

(** ** Samples used at concrete inputs *)

(** Five hits with the integers 1 to 5 under [properties.n], then a hit
    whose [_source] is not a mapping. *)
Definition five_numbers_then_broken : list (dict pyval) :=
  [hit (property "n" (VInt 1)); hit (property "n" (VInt 2));
   hit (property "n" (VInt 3)); hit (property "n" (VInt 4));
   hit (property "n" (VInt 5)); hit (VStr "broken")].

(** [properties.x] is 1, then "foo". *)
Definition one_foo : list (dict pyval) :=
  [hit (property "x" (VInt 1)); hit (property "x" (VStr "foo"))].

(** [properties.x] is ["b"], then 2.5. *)
Definition list_then_float : list (dict pyval) :=
  [hit (property "x" (VList [VStr "b"])); hit (property "x" (VFloat "2.5"))].

(** [properties.age] is 5, then 7.5, then 3. *)
Definition ages : list (dict pyval) :=
  [hit (property "age" (VInt 5)); hit (property "age" (VFloat "7.5"));
   hit (property "age" (VInt 3))].

(** [properties.tag] is "a", then ["b", "c"]. *)
Definition tags : list (dict pyval) :=
  [hit (property "tag" (VStr "a"));
   hit (property "tag" (VList [VStr "b"; VStr "c"]))].

(** [properties.x] is 1, then 2.5, then "foo", then ["b"]. *)
Definition widening_run : list (dict pyval) :=
  [hit (property "x" (VInt 1)); hit (property "x" (VFloat "2.5"));
   hit (property "x" (VStr "foo")); hit (property "x" (VList [VStr "b"]))].

(** [properties.name] is "Ada", then absent, then "Bob", then "Ada". *)
Definition names : list (dict pyval) :=
  [hit (property "name" (VStr "Ada")); hit (property "tag" (VStr "a"));
   hit (property "name" (VStr "Bob")); hit (property "name" (VStr "Ada"))].

(** [properties.n] is 1, 2, 3, 4, 5, then "foo". *)
Definition five_numbers_then_foo : list (dict pyval) :=
  [hit (property "n" (VInt 1)); hit (property "n" (VInt 2));
   hit (property "n" (VInt 3)); hit (property "n" (VInt 4));
   hit (property "n" (VInt 5)); hit (property "n" (VStr "foo"))].

(** [properties.x] is ["b"], then "a", then 5. *)
Definition list_a_five : list (dict pyval) :=
  [hit (property "x" (VList [VStr "b"])); hit (property "x" (VStr "a"));
   hit (property "x" (VInt 5))].

(** A hit without [_source]. *)
Definition bare_hit : dict pyval := [("_index", VStr "docs")].

(** Four documents, numbered, the second a [MetadataDocument]: a document
    is a pair of the answer to [isinstance(doc, MetadataDocument)] and its
    number. *)
Definition four_docs : list (bool * nat) :=
  [(false, 1); (true, 2); (false, 3); (false, 4)].

(** ** Sanity checks of the embedding on concrete values *)

Example repr_scalar_list : str (VList [VStr "b"; VStr "c"]) = "['b', 'c']".
Proof. reflexivity. Qed.

Example repr_quote_choice : repr (VStr "it's") = String double_quote ("it's" +:+ String double_quote "").
Proof. reflexivity. Qed.

Example repr_nested :
  str (VDict [("a", VInt (-3)); ("b", VList [VBool true; VNone; VFloat "7.5"])])
  = "{'a': -3, 'b': [True, None, 7.5]}".
Proof. reflexivity. Qed.

Example endswith_keyword : endswith "properties.name.keyword" ".keyword" = true.
Proof. reflexivity. Qed.

Example endswith_short : endswith "word" ".keyword" = false.
Proof. reflexivity. Qed.

Example split_dots_path : split_dots "properties.author.name" = ["properties"; "author"; "name"].
Proof. reflexivity. Qed.

Example nested_lookup_found :
  resolved nested_lookup "properties.age" (hit (property "age" (VInt 5))) = Ok (VInt 5).
Proof. reflexivity. Qed.

Example nested_lookup_miss :
  resolved nested_lookup "properties.age" (hit (property "tag" (VInt 5))) = Ok VNone.
Proof. reflexivity. Qed.

Example nested_lookup_failure :
  resolved nested_lookup "properties.age" (hit (VDict [("doc_id", VInt 5)])) = KeyError.
Proof. reflexivity. Qed.

(** ** The monad's equations *)

Lemma bind_Ok {A B} (m : M A) (f : A -> M B) w a :
  m = (w, Ok a) -> bind m f = (w ++ logged (f a), outcome (f a)).
Proof. intros ->. unfold bind, logged, outcome. by destruct (f a). Qed.

Lemma bind_KeyError {A B} (m : M A) (f : A -> M B) w :
  m = (w, KeyError) -> bind m f = (w, KeyError).
Proof. by intros ->. Qed.

Lemma bind_ret_l {A B} (a : A) (f : A -> M B) : bind (ret a) f = f a.
Proof. unfold bind, ret. by destruct (f a). Qed.

Lemma M_eta {A} (m : M A) : m = (logged m, outcome m).
Proof. by destruct m. Qed.

Lemma outcome_bind {A B} (m : M A) (f : A -> M B) :
  outcome (bind m f) =
  match outcome m with Ok a => outcome (f a) | KeyError => KeyError end.
Proof. destruct m as [w [a|]]; simpl; [|done]. by destruct (f a). Qed.

Lemma logged_bind {A B} (m : M A) (f : A -> M B) :
  logged (bind m f) =
  logged m ++ match outcome m with Ok a => logged (f a) | KeyError => [] end.
Proof.
  destruct m as [w [a|]]; simpl.
  - by destruct (f a).
  - by rewrite app_nil_r.
Qed.

Lemma bind_assoc {A B C} (m : M A) (f : A -> M B) (g : B -> M C) :
  bind (bind m f) g = bind m (fun a => bind (f a) g).
Proof.
  destruct m as [w [a|]]; simpl; [|done].
  destruct (f a) as [w' [b|]]; simpl; [|done].
  destruct (g b) as [w'' r]. by rewrite app_assoc.
Qed.

Lemma bind_ext {A B} (m : M A) (f g : A -> M B) :
  (∀ a, f a = g a) -> bind m f = bind m g.
Proof. intros Hfg. destruct m as [w [a|]]; simpl; [|done]. by rewrite Hfg. Qed.

Lemma count_warnings_app w1 w2 :
  count_warnings (w1 ++ w2) = count_warnings w1 + count_warnings w2.
Proof. unfold count_warnings. by rewrite List.filter_app, length_app. Qed.

(** ** One observation *)

Ltac observe_cases :=
  unfold observe;
  repeat match goal with
  | |- context [match sample_type ?l with _ => _ end] =>
      let E := fresh "Etype" in destruct (sample_type l) eqn:E
  | |- context [decide ?P] => destruct (decide P)
  end.

Lemma observe_returns key v l : ∃ l', outcome (observe key v l) = Ok l'.
Proof. observe_cases; simpl; eauto. Qed.

Lemma set_map_str_id (X : gset string) :
  set_map (C:=gset string) (D:=gset string) (fun x => str (VStr x)) X = X.
Proof. apply set_eq. intros x. rewrite elem_of_map. simpl. split; [by intros (y & -> & ?)|eauto]. Qed.

Lemma size_add_le (x : string) (X : gset string) : size ({[x]} ∪ X) ≤ S (size X).
Proof.
  rewrite size_union_alt, size_singleton.
  assert (size (X ∖ {[x]}) ≤ size X); [|lia].
  by apply subseteq_size, subseteq_difference_l.
Qed.

Lemma size_list_to_set_le (xs : list string) :
  size (list_to_set (C:=gset string) xs) ≤ List.length xs.
Proof.
  induction xs as [|x xs IH]; simpl.
  { change (size (∅ : gset string) ≤ 0). by rewrite size_empty. }
  etrans; [apply size_add_le|]. lia.
Qed.

Lemma size_set_map_le (f : string -> string) (X : gset string) :
  size (set_map (C:=gset string) (D:=gset string) f X) ≤ size X.
Proof.
  unfold set_map. etrans; [apply size_list_to_set_le|].
  by rewrite length_fmap.
Qed.

Lemma observe_size key v l l' :
  outcome (observe key v l) = Ok l' -> size (samples l') ≤ S (size (samples l)).
Proof.
  observe_cases; simpl; intros [= <-]; simpl;
    try apply size_add_le;
    (etrans; [apply size_add_le|]; apply le_n_S, size_set_map_le).
Qed.

Lemma observe_nonempty key v l l' :
  outcome (observe key v l) = Ok l' -> 0 < size (samples l').
Proof.
  assert (Hpos : ∀ (x : string) (X : gset string), 0 < size ({[x]} ∪ X)).
  { intros x X. rewrite size_union_alt, size_singleton. lia. }
  observe_cases; simpl; intros [= <-]; simpl; apply Hpos.
Qed.

(** ** The walk over the sample *)

Section WalkFacts.

Variable dotted_lookup : pyval -> string -> result pyval.

Local Abbreviation walk := (walk dotted_lookup).
Local Abbreviation resolved := (resolved dotted_lookup).

Lemma walk_nil key l : walk key [] l = ret l.
Proof. done. Qed.

Lemma walk_cons key sample rest l :
  walk key (sample :: rest) l =
  if decide (NUM_EXAMPLE_VALUES ≤ size (samples l)) then ret l
  else match resolved key sample with
       | KeyError => raise_KeyError
       | Ok v => if is_none v then walk key rest l
                 else bind (observe key v l) (walk key rest)
       end.
Proof.
  simpl. destruct (decide _); [done|].
  unfold resolved, subscript.
  destruct (getitem sample "_source") as [source|]; [|done].
  simpl. destruct (dotted_lookup source key) as [v|]; [|done].
  simpl.
  destruct v; simpl; match goal with |- _ = ?m => by destruct m end.
Qed.

Lemma walk_capped key random_sample l :
  NUM_EXAMPLE_VALUES ≤ size (samples l) -> walk key random_sample l = ret l.
Proof.
  intros Hcap. destruct random_sample; [done|].
  rewrite walk_cons. by destruct (decide _).
Qed.

Lemma walk_app key pre post l :
  walk key (pre ++ post) l = bind (walk key pre l) (walk key post).
Proof.
  revert l. induction pre as [|sample pre IH]; intros l.
  { by rewrite walk_nil, bind_ret_l. }
  rewrite <- app_comm_cons, !walk_cons.
  destruct (decide _) as [Hcap|_].
  { by rewrite bind_ret_l, walk_capped. }
  destruct (resolved key sample) as [v|]; [|done].
  destruct (is_none v); [apply IH|].
  rewrite bind_assoc. by apply bind_ext.
Qed.

(** A property of the locals that every observation made below the cap
    preserves holds at the end of every walk that returns. *)
Lemma walk_preserves (P : locals -> Prop) key :
  (∀ v l l', P l -> size (samples l) < NUM_EXAMPLE_VALUES -> is_none v = false ->
             outcome (observe key v l) = Ok l' -> P l') ->
  ∀ random_sample l l',
    P l -> outcome (walk key random_sample l) = Ok l' -> P l'.
Proof.
  intros Hstep random_sample.
  induction random_sample as [|sample rest IH]; intros l l' HP.
  { by intros [= <-]. }
  rewrite walk_cons. destruct (decide _) as [|Hlt]; [by intros [= <-]|].
  destruct (resolved key sample) as [v|]; [|done].
  destruct (is_none v) eqn:Hv; [by apply IH|].
  rewrite outcome_bind.
  destruct (observe_returns key v l) as [l1 Hl1]. rewrite Hl1.
  apply IH. eapply Hstep; eauto. lia.
Qed.

End WalkFacts.

(** ** Warnings logged by one walk *)

Lemma warned_le_1 key l : warned key l ≤ 1.
Proof. unfold warned. destruct (warnings l !! key); lia. Qed.

Lemma observe_warnings key v l l' :
  outcome (observe key v l) = Ok l' ->
  count_warnings (logged (observe key v l)) + warned key l = warned key l'.
Proof.
  unfold warned. observe_cases; simpl; intros [= <-]; simpl; try done.
  match goal with H : warnings l !! key = None |- _ => rewrite H end.
  by rewrite lookup_insert_eq.
Qed.

Section WalkWarnings.

Variable dotted_lookup : pyval -> string -> result pyval.

Local Abbreviation walk := (walk dotted_lookup).
Local Abbreviation resolved := (resolved dotted_lookup).

Lemma walk_warnings_bound key random_sample l :
  count_warnings (logged (walk key random_sample l)) + warned key l ≤ 1.
Proof.
  revert l. induction random_sample as [|sample rest IH]; intros l.
  { simpl. apply warned_le_1. }
  rewrite walk_cons. destruct (decide _); [apply warned_le_1|].
  destruct (resolved key sample) as [v|]; [|apply warned_le_1].
  destruct (is_none v); [apply IH|].
  rewrite logged_bind, count_warnings_app.
  destruct (observe_returns key v l) as [l1 Hl1]. rewrite Hl1.
  pose proof (observe_warnings _ _ _ _ Hl1). specialize (IH l1). lia.
Qed.

Lemma walk_warnings key random_sample l l' :
  outcome (walk key random_sample l) = Ok l' ->
  count_warnings (logged (walk key random_sample l)) + warned key l = warned key l'.
Proof.
  revert l. induction random_sample as [|sample rest IH]; intros l.
  { by intros [= <-]. }
  rewrite walk_cons. destruct (decide _); [by intros [= <-]|].
  destruct (resolved key sample) as [v|]; [|done].
  destruct (is_none v); [apply IH|].
  rewrite outcome_bind, logged_bind, count_warnings_app.
  destruct (observe_returns key v l) as [l1 Hl1]. rewrite Hl1.
  intros Hrest. pose proof (observe_warnings _ _ _ _ Hl1).
  specialize (IH l1 Hrest). lia.
Qed.

(** The walk keeps the examples within the cap. *)
Lemma walk_size key random_sample l l' :
  size (samples l) ≤ NUM_EXAMPLE_VALUES ->
  outcome (walk key random_sample l) = Ok l' ->
  size (samples l') ≤ NUM_EXAMPLE_VALUES.
Proof.
  apply (walk_preserves dotted_lookup (fun l => size (samples l) ≤ NUM_EXAMPLE_VALUES)).
  intros v l0 l1 _ Hlt _ Hobs. apply observe_size in Hobs. lia.
Qed.

End WalkWarnings.

(** ** How one observation moves the type *)

Lemma observe_first key v l :
  sample_type l = None ->
  observe key v l
  = ret (Locals ({[str v]} ∪ samples l) (Some (type v)) (warnings l)).
Proof. intros H. unfold observe. by rewrite H. Qed.

Lemma observe_list_stays key v l l' :
  sample_type l = Some TList -> outcome (observe key v l) = Ok l' ->
  sample_type l' = Some TList.
Proof.
  intros H. unfold observe. rewrite H.
  repeat (destruct (decide _)); simpl; intros [= <-]; simpl;
    solve [done | intuition congruence | exfalso; intuition congruence].
Qed.

Lemma observe_str_moves key v l l' :
  sample_type l = Some TStr -> outcome (observe key v l) = Ok l' ->
  sample_type l' = Some (if decide (type v = TList) then TList else TStr).
Proof.
  intros H. unfold observe. rewrite H.
  repeat (destruct (decide _)); simpl; intros [= <-]; simpl;
    solve [done | intuition congruence | exfalso; intuition congruence].
Qed.

(** ** Dictionaries *)

Lemma getitem_setitem {V} (d : dict V) k v k' :
  getitem (setitem d k v) k' = if decide (k = k') then Some v else getitem d k'.
Proof.
  induction d as [|[k0 v0] d IH]; simpl.
  { destruct (decide (k = k')); done. }
  destruct (decide (k0 = k)) as [->|Hne]; simpl.
  - destruct (decide (k = k')); done.
  - destruct (decide (k0 = k')) as [->|]; [|done].
    destruct (decide (k = k')); congruence.
Qed.

Lemma setitem_keeps_head {V} (d : dict V) k0 v0 k v :
  k0 ≠ k -> setitem ((k0, v0) :: d) k v = (k0, v0) :: setitem d k v.
Proof. intros Hne. simpl. by destruct (decide (k0 = k)). Qed.

(** ** One key, all keys, [get_schema] *)

Lemma eligible_not_text_representation key :
  eligible key = true -> key ≠ "text_representation".
Proof. by intros Hkey ->. Qed.

Section FetcherFacts.

Variable dotted_lookup : pyval -> string -> result pyval.
Variable random_sample : list (dict pyval).

Local Abbreviation walk := (walk dotted_lookup).
Local Abbreviation visit_key := (visit_key dotted_lookup random_sample).
Local Abbreviation visit_keys := (visit_keys dotted_lookup random_sample).
Local Abbreviation contribution := (contribution dotted_lookup random_sample).
Local Abbreviation record_key := (record_key dotted_lookup random_sample).
Local Abbreviation key_log := (key_log dotted_lookup random_sample).

Lemma visit_key_outcome key d : outcome (visit_key key d) = Ok (record_key d key).
Proof.
  unfold visit_key, record_key, eligible, contribution.
  destruct (endswith key ".keyword"); [done|].
  destruct (startswith key "properties."); [|done].
  simpl. destruct (walk key random_sample fresh) as [w [l|]]; [|done].
  simpl. by destruct (decide (0 < size (samples l))).
Qed.

Lemma visit_key_logged key d : logged (visit_key key d) = key_log key.
Proof.
  unfold key_log, visit_key.
  destruct (endswith key ".keyword"); [done|].
  destruct (startswith key "properties."); [|done].
  simpl. destruct (walk key random_sample fresh) as [w [l|]]; [|done].
  simpl. by destruct (decide (0 < size (samples l))).
Qed.

Lemma key_log_ineligible key :
  eligible key = false ->
  ∃ msg, key_log key = [LogRecord DEBUG msg].
Proof.
  unfold key_log, visit_key, eligible.
  destruct (endswith key ".keyword"); [by eexists|].
  destruct (startswith key "properties."); [done|by eexists].
Qed.

Lemma key_log_eligible key :
  eligible key = true ->
  ∃ msg,
    key_log key
    = LogRecord DEBUG ("  Attempting to get samples for key " +:+ key)
      :: logged (walk key random_sample fresh) ++ [LogRecord DEBUG msg].
Proof.
  unfold key_log, visit_key, eligible.
  destruct (endswith key ".keyword"); [done|].
  destruct (startswith key "properties."); [|done].
  intros _. simpl. destruct (walk key random_sample fresh) as [w [l|]].
  - simpl. destruct (decide (0 < size (samples l))); by eexists.
  - by eexists.
Qed.

Lemma visit_keys_outcome mapping_keys d :
  outcome (visit_keys mapping_keys d) = Ok (fold_left record_key mapping_keys d).
Proof.
  revert d. induction mapping_keys as [|key rest IH]; intros d; [done|].
  simpl. by rewrite outcome_bind, visit_key_outcome, IH.
Qed.

Lemma visit_keys_logged mapping_keys d :
  logged (visit_keys mapping_keys d) = List.concat (map key_log mapping_keys).
Proof.
  revert d. induction mapping_keys as [|key rest IH]; intros d; [done|].
  simpl. by rewrite logged_bind, visit_key_outcome, visit_key_logged, IH.
Qed.

Lemma getitem_record_key d key k :
  getitem (record_key d key) k
  = match (if bool_decide (key = k) && eligible k then contribution k else None) with
    | Some field => Some field
    | None => getitem d k
    end.
Proof.
  unfold record_key. destruct (bool_decide_reflect (key = k)) as [->|Hne]; simpl.
  - destruct (eligible k); [|done].
    destruct (contribution k); [|done].
    rewrite getitem_setitem. by destruct (decide (k = k)).
  - destruct (eligible key); [|done].
    destruct (contribution key); [|done].
    rewrite getitem_setitem. by destruct (decide (key = k)).
Qed.

Lemma getitem_fold_record_key mapping_keys d k :
  getitem (fold_left record_key mapping_keys d) k
  = match (if bool_decide (k ∈ mapping_keys) && eligible k then contribution k else None) with
    | Some field => Some field
    | None => getitem d k
    end.
Proof.
  revert d. induction mapping_keys as [|key rest IH]; intros d; [done|].
  simpl. rewrite IH, getitem_record_key.
  destruct (bool_decide_reflect (k ∈ rest)) as [Hin|Hnin].
  - rewrite (bool_decide_eq_true_2 (k ∈ key :: rest)); [|by right].
    simpl. destruct (eligible k); [|by rewrite andb_false_r].
    destruct (contribution k); [done|]. by rewrite andb_true_r; destruct (bool_decide _).
  - simpl. destruct (bool_decide_reflect (key = k)) as [->|Hne].
    + rewrite (bool_decide_eq_true_2 (k ∈ k :: rest)); [done|by left].
    + rewrite (bool_decide_eq_false_2 (k ∈ key :: rest)); [done|].
      rewrite elem_of_cons. intuition congruence.
Qed.

End FetcherFacts.

Section SchemaFacts.

Variable dotted_lookup : pyval -> string -> result pyval.

Local Abbreviation get_schema := (get_schema dotted_lookup).
Local Abbreviation contribution := (contribution dotted_lookup).
Local Abbreviation record_key := (record_key dotted_lookup).
Local Abbreviation key_log := (key_log dotted_lookup).

Lemma get_schema_outcome index mapping_keys random_sample :
  outcome (get_schema index mapping_keys random_sample)
  = Ok (mkOpenSearchSchema (fold_left (record_key random_sample) mapping_keys seed)).
Proof.
  unfold get_schema. rewrite outcome_bind. simpl.
  by rewrite outcome_bind, visit_keys_outcome.
Qed.

Lemma get_schema_logged index mapping_keys random_sample :
  logged (get_schema index mapping_keys random_sample)
  = LogRecord DEBUG ("Getting schema for index " +:+ index)
    :: List.concat (map (key_log random_sample) mapping_keys).
Proof.
  unfold get_schema. rewrite logged_bind. simpl.
  rewrite logged_bind, visit_keys_outcome, visit_keys_logged. simpl.
  by rewrite app_nil_r.
Qed.

(** The entry of every key of the returned schema, from the listing and
    the walk of that key alone. *)
Lemma get_schema_getitem index mapping_keys random_sample sch k :
  outcome (get_schema index mapping_keys random_sample) = Ok sch ->
  getitem (fields sch) k
  = match (if bool_decide (k ∈ mapping_keys) && eligible k
           then contribution random_sample k else None) with
    | Some field => Some field
    | None => if decide ("text_representation" = k)
              then Some text_representation_field else None
    end.
Proof.
  rewrite get_schema_outcome. intros [= <-]. simpl.
  by rewrite getitem_fold_record_key.
Qed.

Lemma record_key_keeps_seed random_sample d key :
  ∃ d', record_key random_sample (("text_representation", text_representation_field) :: d) key
        = ("text_representation", text_representation_field) :: d'.
Proof.
  unfold record_key. destruct (eligible key) eqn:Hkey; [|by eexists].
  destruct (contribution random_sample key); [|by eexists].
  rewrite setitem_keeps_head; [by eexists|].
  intros Heq. by apply (eligible_not_text_representation key).
Qed.

Lemma fold_record_key_keeps_seed random_sample mapping_keys d :
  ∃ d', fold_left (record_key random_sample) mapping_keys
          (("text_representation", text_representation_field) :: d)
        = ("text_representation", text_representation_field) :: d'.
Proof.
  revert d. induction mapping_keys as [|key rest IH]; intros d; [by eexists|].
  simpl. destruct (record_key_keeps_seed random_sample d key) as [d1 ->]. apply IH.
Qed.

End SchemaFacts.

(** ** The claims *)

(** C8. Whatever the metadata listing and the sample, [get_schema] returns
    a schema that holds the synthetic field ["text_representation"] with type
    [<class 'str'>], the fixed description and no examples.  It is the first
    entry, there before any key is processed, and after any number of keys
    of the listing have been processed it is still that entry. *)
Theorem C8_text_representation_always_present
    (dotted_lookup : pyval -> string -> result pyval) (index : string)
    (mapping_keys : list string) (random_sample : list (dict pyval)) :
  ∃ sch,
    outcome (get_schema dotted_lookup index mapping_keys random_sample) = Ok sch
    ∧ getitem (fields sch) "text_representation"
      = Some (mkSchemaField "default" "<class 'str'>"
                (Some "Can be assumed to have all other details") None)
    ∧ (∃ sampled, fields sch = ("text_representation", text_representation_field) :: sampled)
    ∧ ∀ n, ∃ d,
        outcome (visit_keys dotted_lookup random_sample (take n mapping_keys)
                   [("text_representation", text_representation_field)]) = Ok d
        ∧ getitem d "text_representation" = Some text_representation_field.
Proof.
  eexists. split; [apply get_schema_outcome|]. simpl. split; [|split].
  - rewrite getitem_fold_record_key. simpl. by rewrite andb_false_r.
  - apply fold_record_key_keeps_seed.
  - intros n. eexists. split; [apply visit_keys_outcome|].
    rewrite getitem_fold_record_key. simpl. by rewrite andb_false_r.
Qed.

(** C7 (as stated, refuted). The listing [["text_representation"]] holds a
    key that does not start with ["properties."], and that key is a key of
    the schema [get_schema] returns. *)
Lemma C7_counterexample :
  "text_representation" ∈ ["text_representation"]
  ∧ startswith "text_representation" "properties." = false
  ∧ ∃ sch,
      outcome (get_schema nested_lookup "docs" ["text_representation"] []) = Ok sch
      ∧ "text_representation" ∈ keys (fields sch).
Proof.
  split; [by left|]. split; [done|].
  eexists. split; [reflexivity|]. by left.
Qed.

(** C7 (amended). A key that ends with [".keyword"] or does not start with
    ["properties."] never gets a sampled entry: the returned schema maps it to
    nothing, unless it is the key ["text_representation"], which the schema
    always maps to the synthetic entry.  Its pass through the loop logs one
    record at debug level, returns without an exception and leaves the
    fields collected so far as they are, whatever they are. *)
Theorem C7_rejected_key_gets_no_sampled_entry
    (dotted_lookup : pyval -> string -> result pyval) (index : string)
    (mapping_keys : list string) (random_sample : list (dict pyval)) (key : string) :
  endswith key ".keyword" = true ∨ startswith key "properties." = false ->
  (∃ sch,
     outcome (get_schema dotted_lookup index mapping_keys random_sample) = Ok sch
     ∧ getitem (fields sch) key
       = if decide (key = "text_representation")
         then Some text_representation_field else None)
  ∧ (∀ result_fields, ∃ msg,
       visit_key dotted_lookup random_sample key result_fields
       = ([LogRecord DEBUG msg], Ok result_fields)).
Proof.
  intros Hrejected.
  assert (Hkey : eligible key = false).
  { unfold eligible. destruct Hrejected as [-> | ->]; [done|apply andb_false_r]. }
  split.
  - eexists. split; [apply get_schema_outcome|]. simpl.
    rewrite getitem_fold_record_key, Hkey, andb_false_r. simpl.
    destruct (decide ("text_representation" = key)) as [<-|Hne]; [done|].
    by destruct (decide (key = "text_representation")).
  - intros d. unfold visit_key.
    destruct (endswith key ".keyword") eqn:Hsuffix; [by eexists|].
    destruct (startswith key "properties.") eqn:Hprefix; [|by eexists].
    destruct Hrejected; congruence.
Qed.

Lemma C7_witness :
  (endswith "properties.name.keyword" ".keyword" = true
   ∨ startswith "properties.name.keyword" "properties." = false)
  ∧ (∃ sch,
       outcome (get_schema nested_lookup "docs"
                  ["properties.name"; "properties.name.keyword"]
                  [hit (property "name" (VStr "Ada"))]) = Ok sch
       ∧ getitem (fields sch) "properties.name.keyword" = None).
Proof.
  split; [by left|].
  apply (C7_rejected_key_gets_no_sampled_entry nested_lookup "docs"
           ["properties.name"; "properties.name.keyword"]
           [hit (property "name" (VStr "Ada"))] "properties.name.keyword").
  by left.
Defined.

(** ** Which samples give a walk its examples *)

Section WalkData.

Variable dotted_lookup : pyval -> string -> result pyval.

Local Abbreviation walk := (walk dotted_lookup).
Local Abbreviation resolved := (resolved dotted_lookup).

Local Abbreviation has_value := (has_value dotted_lookup).

Lemma walk_skips key sample rest l :
  resolved key sample = Ok VNone -> walk key (sample :: rest) l = walk key rest l.
Proof.
  intros H. rewrite walk_cons, H. simpl.
  destruct (decide _); [by rewrite walk_capped|done].
Qed.

Lemma walk_observes key sample rest l v :
  size (samples l) < NUM_EXAMPLE_VALUES ->
  resolved key sample = Ok v -> is_none v = false ->
  walk key (sample :: rest) l = bind (observe key v l) (walk key rest).
Proof.
  intros Hlt H Hv. rewrite walk_cons, H, Hv.
  destruct (decide _); [lia|done].
Qed.

Lemma walk_raises key sample rest l :
  size (samples l) < NUM_EXAMPLE_VALUES ->
  resolved key sample = KeyError ->
  walk key (sample :: rest) l = raise_KeyError.
Proof.
  intros Hlt H. rewrite walk_cons, H.
  destruct (decide _); [lia|done].
Qed.

(** A walk that returns without a value in sight leaves the locals alone. *)
Lemma walk_without_values key random_sample l l' :
  Forall (fun sample => has_value key sample = false) random_sample ->
  outcome (walk key random_sample l) = Ok l' -> l' = l.
Proof.
  intros Hno. revert l. induction Hno as [|sample rest Hs _ IH]; intros l.
  { by intros [= <-]. }
  rewrite walk_cons. destruct (decide _); [by intros [= <-]|].
  unfold has_value in Hs.
  destruct (resolved key sample) as [v|]; [|done].
  destruct (is_none v); [apply IH|done].
Qed.

(** A walk over samples none of which fails returns. *)
Lemma walk_returns key random_sample l :
  Forall (fun sample => resolved key sample ≠ KeyError) random_sample ->
  ∃ l', outcome (walk key random_sample l) = Ok l'.
Proof.
  intros Hok. revert l. induction Hok as [|sample rest Hs _ IH]; intros l.
  { by eexists. }
  rewrite walk_cons. destruct (decide _); [by eexists|].
  destruct (resolved key sample) as [v|]; [|done].
  destruct (is_none v); [apply IH|].
  rewrite outcome_bind.
  destruct (observe_returns key v l) as [l1 ->]. apply IH.
Qed.

Lemma walk_keeps_nonempty key random_sample l l' :
  0 < size (samples l) -> outcome (walk key random_sample l) = Ok l' ->
  0 < size (samples l').
Proof.
  apply (walk_preserves dotted_lookup (fun l => 0 < size (samples l))).
  intros v l0 l1 _ _ _ Hobs. by apply observe_nonempty in Hobs.
Qed.

Lemma walk_finds_value key random_sample l l' :
  Exists (fun sample => has_value key sample = true) random_sample ->
  outcome (walk key random_sample l) = Ok l' ->
  0 < size (samples l').
Proof.
  intros Hex. revert l. induction random_sample as [|sample rest IH]; intros l.
  { by apply Exists_nil in Hex. }
  rewrite walk_cons. destruct (decide _) as [Hcap|_].
  { intros [= <-]. unfold NUM_EXAMPLE_VALUES in Hcap. lia. }
  apply Exists_cons in Hex. unfold has_value in Hex at 1.
  destruct (resolved key sample) as [v|]; [|done].
  destruct (is_none v).
  - destruct Hex as [?|Hex]; [done|]. by apply IH.
  - rewrite outcome_bind.
    destruct (observe_returns key v l) as [l1 Hl1]. rewrite Hl1.
    apply walk_keeps_nonempty. by apply observe_nonempty in Hl1.
Qed.

(** The examples grow by at most one per value met. *)
Lemma walk_size_values key random_sample l l' :
  outcome (walk key random_sample l) = Ok l' ->
  size (samples l')
  ≤ size (samples l) + List.length (List.filter (has_value key) random_sample).
Proof.
  revert l. induction random_sample as [|sample rest IH]; intros l.
  { intros [= <-]. lia. }
  rewrite walk_cons. destruct (decide _); [intros [= <-]; lia|].
  destruct (resolved key sample) as [v|] eqn:Hres; [|done].
  assert (Hs : has_value key sample = negb (is_none v)).
  { unfold has_value. by rewrite Hres. }
  simpl. rewrite Hs. destruct (is_none v); simpl.
  - apply IH.
  - rewrite outcome_bind.
    destruct (observe_returns key v l) as [l1 Hl1]. rewrite Hl1.
    intros Hrest. apply IH in Hrest. apply observe_size in Hl1. lia.
Qed.

End WalkData.

Section Contribution.

Variable dotted_lookup : pyval -> string -> result pyval.

Local Abbreviation walk := (walk dotted_lookup).
Local Abbreviation resolved := (resolved dotted_lookup).
Local Abbreviation has_value := (has_value dotted_lookup).
Local Abbreviation get_schema := (get_schema dotted_lookup).
Local Abbreviation contribution := (contribution dotted_lookup).

Lemma get_schema_getitem_eligible index mapping_keys random_sample sch key :
  eligible key = true -> key ∈ mapping_keys ->
  outcome (get_schema index mapping_keys random_sample) = Ok sch ->
  getitem (fields sch) key = contribution random_sample key.
Proof.
  intros Hkey Hin Hsch.
  rewrite (get_schema_getitem _ _ _ _ _ _ Hsch), Hkey.
  rewrite (bool_decide_eq_true_2 _ Hin). simpl.
  destruct (contribution random_sample key); [done|].
  destruct (decide _) as [Heq|]; [|done].
  symmetry in Heq. by apply eligible_not_text_representation in Heq.
Qed.

Lemma size_pos_nonempty (X : gset string) : 0 < size X ↔ X ≠ ∅.
Proof.
  pose proof (size_empty_iff X) as Hiff. unfold_leibniz.
  split; [intros Hpos Hempty|intros Hne].
  - apply Hiff in Hempty. lia.
  - assert (size X ≠ 0); [|lia]. intros Hsize. by apply Hiff in Hsize.
Qed.

Lemma size_zero_empty (X : gset string) : size X = 0 ↔ X = ∅.
Proof. pose proof (size_empty_iff X). by unfold_leibniz. Qed.

Lemma contribution_Some random_sample key field :
  contribution random_sample key = Some field ↔
  ∃ l, outcome (walk key random_sample fresh) = Ok l ∧ samples l ≠ ∅
       ∧ field = sampled_field l.
Proof.
  unfold contribution. split.
  - destruct (outcome _) as [l|]; [|done].
    destruct (decide _) as [Hpos|]; [|done].
    intros [= <-]. exists l. by rewrite <- size_pos_nonempty.
  - intros (l & -> & Hne & ->).
    destruct (decide _) as [|Hzero]; [done|]. by apply size_pos_nonempty in Hne.
Qed.

Lemma contribution_None random_sample key :
  contribution random_sample key = None ↔
  outcome (walk key random_sample fresh) = KeyError
  ∨ ∃ l, outcome (walk key random_sample fresh) = Ok l ∧ samples l = ∅.
Proof.
  unfold contribution. split.
  - destruct (outcome _) as [l|]; [|by left].
    destruct (decide _) as [|Hzero]; [done|]. intros _. right. exists l.
    split; [done|]. apply size_zero_empty. lia.
  - intros [->|(l & -> & Hempty)]; [done|].
    destruct (decide _) as [Hpos|]; [|done].
    rewrite Hempty, size_empty in Hpos. lia.
Qed.

End Contribution.

Lemma size_fresh : size (samples fresh) = 0.
Proof. apply size_empty. Qed.

(** C5. For an eligible key of the listing, the returned schema has an
    entry exactly when the walk of the sample returns without [KeyError]
    holding at least one example, and the entry is then built from that
    walk.  A walk that raises leaves the key out while [get_schema] still
    returns; a sample without a single non-null value for the key leaves it
    out too; an entry means some sample has a non-null value; when no lookup
    fails, one non-null value is enough for an entry; a lookup that fails
    before five values were met loses the values met so far.  Every other
    key has the entry it would have had without this key in the listing. *)
Theorem C5_entry_iff_walk_yields_data
    (dotted_lookup : pyval -> string -> result pyval) (index : string)
    (mapping_keys : list string) (random_sample : list (dict pyval)) (key : string) :
  eligible key = true -> key ∈ mapping_keys ->
  ∃ sch,
    outcome (get_schema dotted_lookup index mapping_keys random_sample) = Ok sch
    ∧ (is_Some (getitem (fields sch) key)
       ↔ ∃ l, outcome (walk dotted_lookup key random_sample fresh) = Ok l
              ∧ samples l ≠ ∅)
    ∧ (∀ l, outcome (walk dotted_lookup key random_sample fresh) = Ok l ->
            samples l ≠ ∅ ->
            getitem (fields sch) key
            = Some (mkSchemaField "default" (str_opt_type (sample_type l)) None
                      (Some (elements (samples l)))))
    ∧ (outcome (walk dotted_lookup key random_sample fresh) = KeyError ->
       getitem (fields sch) key = None)
    ∧ (Forall (fun sample => has_value dotted_lookup key sample = false) random_sample ->
       getitem (fields sch) key = None)
    ∧ (is_Some (getitem (fields sch) key) ->
       Exists (fun sample => has_value dotted_lookup key sample = true) random_sample)
    ∧ (Forall (fun sample => resolved dotted_lookup key sample ≠ KeyError) random_sample ->
       Exists (fun sample => has_value dotted_lookup key sample = true) random_sample ->
       is_Some (getitem (fields sch) key))
    ∧ (∀ before sample after,
         random_sample = before ++ sample :: after ->
         Forall (fun s => resolved dotted_lookup key s ≠ KeyError) before ->
         List.length (List.filter (has_value dotted_lookup key) before) < NUM_EXAMPLE_VALUES ->
         resolved dotted_lookup key sample = KeyError ->
         getitem (fields sch) key = None)
    ∧ (∀ other sch',
         other ≠ key ->
         outcome (get_schema dotted_lookup index
                    (filter (fun k => k ≠ key) mapping_keys) random_sample) = Ok sch' ->
         getitem (fields sch) other = getitem (fields sch') other).
Proof.
  intros Hkey Hin.
  eexists. split; [apply get_schema_outcome|].
  set (sch := mkOpenSearchSchema _).
  assert (Hsch : outcome (get_schema dotted_lookup index mapping_keys random_sample) = Ok sch)
    by apply get_schema_outcome.
  pose proof (get_schema_getitem_eligible _ _ _ _ _ _ Hkey Hin Hsch) as Hget.
  rewrite Hget. clearbody sch.
  repeat split.
  - intros [field Hfield]. apply contribution_Some in Hfield as (l & ? & ? & ?). eauto.
  - intros (l & Hl & Hne). exists (sampled_field l). apply contribution_Some. eauto.
  - intros l Hl Hne. apply contribution_Some. eauto.
  - intros Hraise. apply contribution_None. by left.
  - intros Hno. apply contribution_None.
    destruct (outcome (walk dotted_lookup key random_sample fresh)) as [l|] eqn:Hl;
      [right|by left].
    exists l. split; [done|].
    by rewrite (walk_without_values _ _ _ _ _ Hno Hl).
  - intros [field Hfield]. apply contribution_Some in Hfield as (l & Hl & Hne & _).
    destruct (decide (Exists (fun sample => has_value dotted_lookup key sample = true)
                        random_sample)) as [|Hnone]; [done|].
    exfalso. apply Hne.
    rewrite (walk_without_values dotted_lookup key random_sample fresh l); [done| |done].
    apply Forall_forall. intros sample Hsample.
    destruct (has_value dotted_lookup key sample) eqn:Hv; [|done].
    exfalso. apply Hnone, Exists_exists. eauto.
  - intros Hok Hex.
    destruct (walk_returns dotted_lookup key random_sample fresh Hok) as [l Hl].
    exists (sampled_field l). apply contribution_Some. exists l.
    split; [done|]. split; [|done].
    apply size_pos_nonempty. by eapply walk_finds_value.
  - intros before sample after -> Hok Hfew Hfail. apply contribution_None. left.
    rewrite walk_app, outcome_bind.
    destruct (walk_returns dotted_lookup key before fresh Hok) as [l Hl]. rewrite Hl.
    rewrite walk_raises; [done| |done].
    apply walk_size_values in Hl. rewrite size_fresh in Hl. lia.
  - intros other sch' Hother Hsch'.
    rewrite (get_schema_getitem _ _ _ _ _ _ Hsch), (get_schema_getitem _ _ _ _ _ _ Hsch').
    assert (Hsame : bool_decide (other ∈ mapping_keys)
                    = bool_decide (other ∈ filter (fun k => k ≠ key) mapping_keys)).
    { apply bool_decide_ext. rewrite list_elem_of_filter. tauto. }
    by rewrite Hsame.
Qed.

Lemma C5_witness :
  eligible "properties.age" = true
  ∧ "properties.age" ∈ ["properties.age"; "properties.age.keyword"]
  ∧ ∃ sch,
      outcome (get_schema nested_lookup "docs" ["properties.age"; "properties.age.keyword"]
                 [hit (property "age" (VInt 5)); hit (property "tag" (VStr "a"))]) = Ok sch
      ∧ (is_Some (getitem (fields sch) "properties.age")
         ↔ ∃ l, outcome (walk nested_lookup "properties.age"
                           [hit (property "age" (VInt 5)); hit (property "tag" (VStr "a"))]
                           fresh) = Ok l
                ∧ samples l ≠ ∅).
Proof.
  assert (Hkey : eligible "properties.age" = true) by reflexivity.
  assert (Hin : "properties.age" ∈ ["properties.age"; "properties.age.keyword"]) by (by left).
  split; [done|]. split; [done|].
  destruct (C5_entry_iff_walk_yields_data nested_lookup "docs"
              ["properties.age"; "properties.age.keyword"]
              [hit (property "age" (VInt 5)); hit (property "tag" (VStr "a"))]
              "properties.age" Hkey Hin) as (sch & Hsch & Hiff & _).
  exists sch. by split.
Defined.

Section Sampled.

Variable dotted_lookup : pyval -> string -> result pyval.

Local Abbreviation walk := (walk dotted_lookup).
Local Abbreviation get_schema := (get_schema dotted_lookup).
Local Abbreviation contribution := (contribution dotted_lookup).

(** An entry with examples comes from the walk of an eligible key of the
    listing. *)
Lemma get_schema_getitem_sampled index mapping_keys random_sample sch key field ex :
  outcome (get_schema index mapping_keys random_sample) = Ok sch ->
  getitem (fields sch) key = Some field -> examples field = Some ex ->
  key ∈ mapping_keys ∧ eligible key = true
  ∧ ∃ l, outcome (walk key random_sample fresh) = Ok l ∧ samples l ≠ ∅
         ∧ field = sampled_field l.
Proof.
  intros Hsch. rewrite (get_schema_getitem _ _ _ _ _ _ Hsch).
  destruct (bool_decide_reflect (key ∈ mapping_keys)) as [Hin|]; simpl.
  - destruct (eligible key) eqn:Hkey.
    + destruct (contribution random_sample key) as [field'|] eqn:Hc.
      * intros [= <-] _. apply contribution_Some in Hc. eauto.
      * destruct (decide _); [|done]. by intros [= <-].
    + destruct (decide _); [|done]. by intros [= <-].
  - destruct (decide _); [|done]. by intros [= <-].
Qed.

Lemma walk_stops_at_cap key before after l :
  outcome (walk key before fresh) = Ok l ->
  NUM_EXAMPLE_VALUES ≤ size (samples l) ->
  walk key (before ++ after) fresh = walk key before fresh.
Proof.
  intros Hl Hcap. rewrite walk_app.
  rewrite (M_eta (walk key before fresh)) at 1. rewrite Hl. simpl.
  rewrite walk_capped; [|done]. simpl.
  rewrite app_nil_r, <- Hl. symmetry. apply M_eta.
Qed.

End Sampled.

(** C2. An entry of the returned schema that has examples has at most
    [NUM_EXAMPLE_VALUES] = 5 of them, all distinct.  A walk that has
    gathered five examples is finished: whatever samples follow, it returns
    the same locals and has logged the same records; so an entry with five
    examples is the entry of every sample that extends this one. *)
Theorem C2_examples_capped
    (dotted_lookup : pyval -> string -> result pyval) (index : string)
    (mapping_keys : list string) (random_sample : list (dict pyval))
    (sch : OpenSearchSchema) (key : string) (field : SchemaField) (ex : list string) :
  outcome (get_schema dotted_lookup index mapping_keys random_sample) = Ok sch ->
  getitem (fields sch) key = Some field ->
  examples field = Some ex ->
  List.length ex ≤ 5
  ∧ NoDup ex
  ∧ (∀ before after l,
       outcome (walk dotted_lookup key before fresh) = Ok l ->
       NUM_EXAMPLE_VALUES ≤ size (samples l) ->
       walk dotted_lookup key (before ++ after) fresh = walk dotted_lookup key before fresh)
  ∧ (List.length ex = 5 ->
     ∀ more, ∃ sch',
       outcome (get_schema dotted_lookup index mapping_keys (random_sample ++ more)) = Ok sch'
       ∧ getitem (fields sch') key = Some field).
Proof.
  intros Hsch Hfield Hex.
  destruct (get_schema_getitem_sampled _ _ _ _ _ _ _ _ Hsch Hfield Hex)
    as (Hin & Hkey & l & Hl & Hne & ->).
  simpl in Hex. injection Hex as <-.
  change (List.length (elements (samples l))) with (size (samples l)).
  split; [|split; [|split]].
  - apply (walk_size dotted_lookup key random_sample fresh); [|done].
    rewrite size_fresh. unfold NUM_EXAMPLE_VALUES. lia.
  - apply NoDup_elements.
  - intros before after l'. apply walk_stops_at_cap.
  - intros Hfull more. eexists. split; [apply get_schema_outcome|].
    rewrite (get_schema_getitem_eligible dotted_lookup index mapping_keys
               (random_sample ++ more) _ key Hkey Hin (get_schema_outcome _ _ _ _)).
    apply contribution_Some. exists l. split; [|done].
    rewrite (walk_stops_at_cap dotted_lookup key random_sample more l Hl); [done|].
    unfold NUM_EXAMPLE_VALUES. lia.
Qed.

Lemma C2_witness :
  ∃ sch,
    outcome (get_schema nested_lookup "docs" ["properties.n"] five_numbers_then_broken)
    = Ok sch
    ∧ getitem (fields sch) "properties.n"
      = Some (mkSchemaField "default" "<class 'int'>" None
                (Some (elements ({["1"; "2"; "3"; "4"; "5"]} : gset string))))
    ∧ List.length (elements ({["1"; "2"; "3"; "4"; "5"]} : gset string)) ≤ 5
    ∧ NoDup (elements ({["1"; "2"; "3"; "4"; "5"]} : gset string)).
Proof.
  exists (mkOpenSearchSchema
            (fold_left (record_key nested_lookup five_numbers_then_broken)
               ["properties.n"] seed)).
  assert (Hsch : outcome (get_schema nested_lookup "docs" ["properties.n"]
                            five_numbers_then_broken)
                 = Ok (mkOpenSearchSchema
                         (fold_left (record_key nested_lookup five_numbers_then_broken)
                            ["properties.n"] seed)))
    by apply get_schema_outcome.
  assert (Hfield : getitem (fold_left (record_key nested_lookup five_numbers_then_broken)
                              ["properties.n"] seed) "properties.n"
                   = Some (mkSchemaField "default" "<class 'int'>" None
                             (Some (elements ({["1"; "2"; "3"; "4"; "5"]} : gset string)))))
    by (vm_compute; reflexivity).
  destruct (C2_examples_capped nested_lookup "docs" ["properties.n"]
              five_numbers_then_broken _ "properties.n" _ _ Hsch Hfield eq_refl)
    as (Hlen & Hnodup & _).
  by repeat split.
Defined.

(** C1 (as stated, refuted). For [properties.x], after the samples 1 and
    "foo" the type is [str]; the next sample, the list ["b"], replaces it by
    [list], and that is the type of the entry [get_schema] returns. *)
Lemma C1_counterexample :
  (∃ l, outcome (walk nested_lookup "properties.x" one_foo fresh) = Ok l
        ∧ sample_type l = Some TStr)
  ∧ (∃ l, outcome (walk nested_lookup "properties.x" (one_foo ++ list_then_float) fresh)
          = Ok l
          ∧ sample_type l = Some TList)
  ∧ ∃ sch field,
      outcome (get_schema nested_lookup "docs" ["properties.x"]
                 (one_foo ++ list_then_float)) = Ok sch
      ∧ getitem (fields sch) "properties.x" = Some field
      ∧ field_type field = "<class 'list'>".
Proof.
  split; [|split].
  - eexists. split; vm_compute; reflexivity.
  - eexists. split; vm_compute; reflexivity.
  - eexists _, _. split; [apply get_schema_outcome|].
    split; vm_compute; reflexivity.
Qed.

(** C1 (amended). Take the locals a walk has reached after part of the
    sample and the locals it returns after the whole sample.  If the type
    was [list] it is [list]; if it was [str] it is [str] or [list].  One more
    value met under type [str] leaves [str] unless the value is a list, which
    makes the type [list]: [str] is never replaced by the integer, float,
    boolean or mapping type. *)
Theorem C1_list_is_final_and_str_only_gives_way_to_list
    (dotted_lookup : pyval -> string -> result pyval) (key : string)
    (before after : list (dict pyval)) (l l' : locals) :
  outcome (walk dotted_lookup key before fresh) = Ok l ->
  outcome (walk dotted_lookup key (before ++ after) fresh) = Ok l' ->
  (sample_type l = Some TList -> sample_type l' = Some TList)
  ∧ (sample_type l = Some TStr ->
     sample_type l' = Some TStr ∨ sample_type l' = Some TList)
  ∧ (∀ v l1,
       sample_type l = Some TStr -> outcome (observe key v l) = Ok l1 ->
       sample_type l1 = Some (if decide (type v = TList) then TList else TStr)).
Proof.
  intros Hl. rewrite walk_app, outcome_bind, Hl. intros Hl'.
  split; [|split].
  - intros Hlist.
    apply (walk_preserves dotted_lookup (fun l => sample_type l = Some TList) key)
      with (random_sample := after) (l := l); [|done|done].
    intros v l0 l1 H0 _ _. by apply observe_list_stays.
  - intros Hstr.
    apply (walk_preserves dotted_lookup
             (fun l => sample_type l = Some TStr ∨ sample_type l = Some TList) key)
      with (random_sample := after) (l := l); [|by left|done].
    intros v l0 l1 [H0|H0] _ _ Hobs.
    + rewrite (observe_str_moves _ _ _ _ H0 Hobs).
      destruct (decide _); [by right|by left].
    + right. by eapply observe_list_stays.
  - intros v l1. apply observe_str_moves.
Qed.

Lemma C1_witness :
  ∃ l l',
    outcome (walk nested_lookup "properties.x" one_foo fresh) = Ok l
    ∧ outcome (walk nested_lookup "properties.x" (one_foo ++ list_then_float) fresh) = Ok l'
    ∧ sample_type l = Some TStr
    ∧ (sample_type l' = Some TStr ∨ sample_type l' = Some TList).
Proof.
  destruct (outcome (walk nested_lookup "properties.x" one_foo fresh)) as [l|] eqn:Hl;
    [|by vm_compute in Hl].
  destruct (outcome (walk nested_lookup "properties.x" (one_foo ++ list_then_float) fresh))
    as [l'|] eqn:Hl'; [|by vm_compute in Hl'].
  assert (Hstr : sample_type l = Some TStr).
  { vm_compute in Hl. by injection Hl as <-. }
  exists l, l'. repeat split; [done|].
  by apply (C1_list_is_final_and_str_only_gives_way_to_list nested_lookup "properties.x"
              one_foo list_then_float l l' Hl Hl').
Defined.

(** ** The rows of the promotion table *)

Lemma observe_int_float key v l :
  sample_type l = Some TInt -> type v = TFloat ->
  observe key v l = ret (Locals ({[str v]} ∪ samples l) (Some TFloat) (warnings l)).
Proof.
  intros H Hv. unfold observe. rewrite H, Hv.
  by destruct (decide _) as [|[]].
Qed.

Lemma observe_float_int key v l :
  sample_type l = Some TFloat -> type v = TInt ->
  observe key v l = ret (Locals ({[str v]} ∪ samples l) (Some TFloat) (warnings l)).
Proof.
  intros H Hv. unfold observe. rewrite H, Hv.
  destruct (decide _) as [[? _]|_]; [done|].
  destruct (decide _) as [|[]]; [|done].
  unfold add_sample. by rewrite H.
Qed.

Lemma observe_wrap key v l :
  sample_type l = Some TList -> type v ≠ TList ->
  observe key v l
  = ret (Locals ({[str (VList [v])]} ∪ samples l) (Some TList) (warnings l)).
Proof.
  intros H Hv. unfold observe. rewrite H.
  destruct (decide _) as [[? _]|_]; [done|].
  destruct (decide _) as [[? _]|_]; [done|].
  destruct (decide _) as [|[]]; [|done].
  unfold add_sample. by rewrite H.
Qed.

Lemma observe_to_list key v l cur :
  sample_type l = Some cur -> cur ≠ TList -> type v = TList ->
  observe key v l
  = ret (Locals ({[str v]} ∪ set_map (fun x => str (VList [VStr x])) (samples l))
           (Some TList) (warnings l)).
Proof.
  intros H Hcur Hv. unfold observe. rewrite H, Hv.
  destruct (decide _) as [[_ ?]|_]; [done|].
  destruct (decide _) as [[_ ?]|_]; [done|].
  destruct (decide _) as [[? _]|_]; [done|].
  by destruct (decide _) as [|[]].
Qed.

Lemma observe_conflict key v l cur :
  sample_type l = Some cur -> conflicting cur (type v) ->
  observe key v l
  = ( if decide (warnings l !! key = None)
      then [LogRecord WARNING (conflict_message key cur (type v))] else [],
      Ok (Locals ({[str v]} ∪ samples l) (Some TStr)
            (if decide (warnings l !! key = None)
             then <[key := true]> (warnings l) else warnings l)) ).
Proof.
  intros H (Hne & Hcur & Hv & Hif & Hfi). unfold observe. rewrite H.
  destruct (decide _); [done|].
  destruct (decide _); [done|].
  destruct (decide _) as [[? _]|_]; [done|].
  destruct (decide _) as [[_ ?]|_]; [done|].
  destruct (decide _); [|done].
  unfold add_sample. simpl. rewrite set_map_str_id.
  by destruct (decide (warnings l !! key = None)).
Qed.

Lemma singleton_list_str x : str (VList [VStr x]) = "[" +:+ repr_str x +:+ "]".
Proof. done. Qed.

(** The elements of a set given by a duplicate-free list, in some order. *)
Lemma elements_of_list (X : gset string) (xs : list string) :
  X = list_to_set xs -> NoDup xs -> elements X ≡ₚ xs.
Proof. intros ->. apply elements_list_to_set. Qed.

Section Scenario.

Variable dotted_lookup : pyval -> string -> result pyval.

Local Abbreviation walk := (walk dotted_lookup).
Local Abbreviation resolved := (resolved dotted_lookup).

(** The first value a fresh walk meets. *)
Lemma walk_first key sample rest v :
  resolved key sample = Ok v -> is_none v = false ->
  walk key (sample :: rest) fresh
  = walk key rest (Locals {[str v]} (Some (type v)) ∅).
Proof.
  intros Hres Hv. rewrite (walk_observes _ _ _ _ _ v); [|rewrite size_fresh; unfold NUM_EXAMPLE_VALUES; lia|done|done].
  rewrite observe_first, bind_ret_l; [|done].
  simpl. by rewrite (right_id_L ∅ (∪)).
Qed.

End Scenario.


Section ScenarioEntry.

Variable dotted_lookup : pyval -> string -> result pyval.

(** The entry of an eligible key of the listing whose walk returns [l]
    with at least one example. *)
Lemma get_schema_entry index mapping_keys random_sample key l :
  eligible key = true -> key ∈ mapping_keys ->
  outcome (walk dotted_lookup key random_sample fresh) = Ok l ->
  samples l ≠ ∅ ->
  ∃ sch,
    outcome (get_schema dotted_lookup index mapping_keys random_sample) = Ok sch
    ∧ getitem (fields sch) key
      = Some (mkSchemaField "default" (str_opt_type (sample_type l)) None
                (Some (elements (samples l)))).
Proof.
  intros Hkey Hin Hwalk Hne.
  eexists. split; [apply get_schema_outcome|].
  rewrite (get_schema_getitem_eligible dotted_lookup index mapping_keys _ _
             key Hkey Hin (get_schema_outcome _ _ _ _)).
  apply contribution_Some. by exists l.
Qed.

End ScenarioEntry.

Lemma union_singleton_nonempty (x : string) (X : gset string) : {[x]} ∪ X ≠ ∅.
Proof. apply size_pos_nonempty. rewrite size_union_alt, size_singleton. lia. Qed.

Ltac below_cap := simpl samples; vm_compute; lia.

(** One more value met by a walk that is below the cap; [Hres] is what the
    sample resolves to. *)
Ltac meet Hres :=
  erewrite walk_observes; [| below_cap | exact Hres | reflexivity].

(** C6. Under type [int] a float value makes the type [float] and only
    adds its own text to the examples; under type [float] an integer value
    leaves the type and likewise only adds its text.  For samples that
    resolve [properties.age] to 5, 7.5 and 3 the entry has type
    [<class 'float'>] and the examples "5", "7.5" and "3". *)
Theorem C6_int_float_upgrade
    (dotted_lookup : pyval -> string -> result pyval) (key : string) (v : pyval)
    (l : locals) (index : string) (mapping_keys : list string)
    (first second third : dict pyval) :
  (sample_type l = Some TInt -> type v = TFloat ->
   observe key v l = ret (Locals ({[str v]} ∪ samples l) (Some TFloat) (warnings l)))
  ∧ (sample_type l = Some TFloat -> type v = TInt ->
     observe key v l = ret (Locals ({[str v]} ∪ samples l) (Some TFloat) (warnings l)))
  ∧ ("properties.age" ∈ mapping_keys ->
     resolved dotted_lookup "properties.age" first = Ok (VInt 5) ->
     resolved dotted_lookup "properties.age" second = Ok (VFloat "7.5") ->
     resolved dotted_lookup "properties.age" third = Ok (VInt 3) ->
     ∃ sch ex,
       outcome (get_schema dotted_lookup index mapping_keys [first; second; third]) = Ok sch
       ∧ getitem (fields sch) "properties.age"
         = Some (mkSchemaField "default" "<class 'float'>" None (Some ex))
       ∧ ex ≡ₚ ["5"; "7.5"; "3"]).
Proof.
  split; [apply observe_int_float|]. split; [apply observe_float_int|].
  intros Hin H1 H2 H3.
  destruct (get_schema_entry dotted_lookup index mapping_keys [first; second; third]
              "properties.age" (Locals ({["3"]} ∪ {["7.5"; "5"]}) (Some TFloat) ∅)
              eq_refl Hin) as (sch & Hsch & Hfield).
  { rewrite (walk_first _ _ _ _ _ H1 eq_refl).
    meet H2. rewrite observe_int_float, bind_ret_l by done.
    meet H3. by rewrite observe_float_int, bind_ret_l by done. }
  { apply union_singleton_nonempty. }
  exists sch, (elements ({["3"]} ∪ {["7.5"; "5"]} : gset string)).
  split; [done|]. split; [exact Hfield|].
  apply elements_of_list; [by vm_compute|].
  by apply (bool_decide_unpack _); vm_compute.
Qed.

Lemma C6_witness :
  "properties.age" ∈ ["properties.age"; "properties.age.keyword"]
  ∧ (∃ sch ex,
       outcome (get_schema nested_lookup "docs"
                  ["properties.age"; "properties.age.keyword"] ages) = Ok sch
       ∧ getitem (fields sch) "properties.age"
         = Some (mkSchemaField "default" "<class 'float'>" None (Some ex))
       ∧ ex ≡ₚ ["5"; "7.5"; "3"])
  ∧ observe "properties.age" (VFloat "7.5") (Locals {["5"]} (Some TInt) ∅)
    = ret (Locals ({["7.5"]} ∪ {["5"]}) (Some TFloat) ∅)
  ∧ observe "properties.age" (VInt 3) (Locals {["7.5"; "5"]} (Some TFloat) ∅)
    = ret (Locals ({["3"]} ∪ {["7.5"; "5"]}) (Some TFloat) ∅).
Proof.
  assert (Hin : "properties.age" ∈ ["properties.age"; "properties.age.keyword"])
    by (by left).
  destruct (C6_int_float_upgrade nested_lookup "properties.age" (VFloat "7.5")
              (Locals {["5"]} (Some TInt) ∅) "docs"
              ["properties.age"; "properties.age.keyword"]
              (hit (property "age" (VInt 5))) (hit (property "age" (VFloat "7.5")))
              (hit (property "age" (VInt 3)))) as (Hup & _ & Hrun).
  destruct (C6_int_float_upgrade nested_lookup "properties.age" (VInt 3)
              (Locals {["7.5"; "5"]} (Some TFloat) ∅) "docs" [] [] [] [])
    as (_ & Hkeep & _).
  split; [done|]. split; [|split].
  - by apply Hrun.
  - by apply Hup.
  - by apply Hkeep.
Defined.

(** C3. Under a type that is not [list] a list value makes the type
    [list], replaces every example [x] gathered so far by
    [str([x])] and then adds its own text; under type [list] a value that is
    not a list is added as the text of the one-element list that holds it.
    For samples that resolve [properties.tag] to "a" and then to
    ["b", "c"] the entry has type [<class 'list'>] and exactly the examples
    "['a']" and "['b', 'c']". *)
Theorem C3_list_promotion
    (dotted_lookup : pyval -> string -> result pyval) (key : string) (v : pyval)
    (l : locals) (cur : pytype) (index : string) (mapping_keys : list string)
    (first second : dict pyval) :
  (sample_type l = Some cur -> cur ≠ TList -> type v = TList ->
   observe key v l
   = ret (Locals ({[str v]} ∪ set_map (fun x => str (VList [VStr x])) (samples l))
            (Some TList) (warnings l)))
  ∧ (sample_type l = Some TList -> type v ≠ TList ->
     observe key v l
     = ret (Locals ({[str (VList [v])]} ∪ samples l) (Some TList) (warnings l)))
  ∧ (∀ x, str (VList [VStr x]) = "[" +:+ repr_str x +:+ "]")
  ∧ ("properties.tag" ∈ mapping_keys ->
     resolved dotted_lookup "properties.tag" first = Ok (VStr "a") ->
     resolved dotted_lookup "properties.tag" second = Ok (VList [VStr "b"; VStr "c"]) ->
     ∃ sch ex,
       outcome (get_schema dotted_lookup index mapping_keys [first; second]) = Ok sch
       ∧ getitem (fields sch) "properties.tag"
         = Some (mkSchemaField "default" "<class 'list'>" None (Some ex))
       ∧ ex ≡ₚ ["['a']"; "['b', 'c']"]).
Proof.
  split; [apply observe_to_list|]. split; [apply observe_wrap|]. split; [done|].
  intros Hin H1 H2.
  destruct (get_schema_entry dotted_lookup index mapping_keys [first; second]
              "properties.tag" (Locals ({["['b', 'c']"]} ∪ {["['a']"]}) (Some TList) ∅)
              eq_refl Hin) as (sch & Hsch & Hfield).
  { rewrite (walk_first _ _ _ _ _ H1 eq_refl).
    meet H2. rewrite (observe_to_list _ _ _ TStr), bind_ret_l by done.
    simpl samples. by rewrite set_map_singleton_L. }
  { apply union_singleton_nonempty. }
  exists sch, (elements ({["['b', 'c']"]} ∪ {["['a']"]} : gset string)).
  split; [done|]. split; [exact Hfield|].
  apply elements_of_list; [by vm_compute|].
  by apply (bool_decide_unpack _); vm_compute.
Qed.

Lemma C3_witness :
  "properties.tag" ∈ ["properties.tag"]
  ∧ (∃ sch ex,
       outcome (get_schema nested_lookup "docs" ["properties.tag"] tags) = Ok sch
       ∧ getitem (fields sch) "properties.tag"
         = Some (mkSchemaField "default" "<class 'list'>" None (Some ex))
       ∧ ex ≡ₚ ["['a']"; "['b', 'c']"])
  ∧ observe "properties.tag" (VList [VStr "b"; VStr "c"]) (Locals {["a"]} (Some TStr) ∅)
    = ret (Locals ({["['b', 'c']"]}
                   ∪ set_map (C:=gset string) (fun x => str (VList [VStr x])) {["a"]})
             (Some TList) ∅)
  ∧ observe "properties.tag" (VInt 7) (Locals {["['a']"]} (Some TList) ∅)
    = ret (Locals ({["[7]"]} ∪ {["['a']"]}) (Some TList) ∅).
Proof.
  assert (Hin : "properties.tag" ∈ ["properties.tag"]) by (by left).
  destruct (C3_list_promotion nested_lookup "properties.tag"
              (VList [VStr "b"; VStr "c"]) (Locals {["a"]} (Some TStr) ∅) TStr "docs"
              ["properties.tag"] (hit (property "tag" (VStr "a")))
              (hit (property "tag" (VList [VStr "b"; VStr "c"]))))
    as (Hup & _ & _ & Hrun).
  destruct (C3_list_promotion nested_lookup "properties.tag" (VInt 7)
              (Locals {["['a']"]} (Some TList) ∅) TList "docs" [] [] [])
    as (_ & Hwrap & _).
  split; [done|]. split; [|split].
  - by apply Hrun.
  - by apply Hup.
  - by apply Hwrap.
Defined.

(** ** Warnings of a run *)

Lemma observe_conflict_warned key v l l' cur :
  sample_type l = Some cur -> conflicting cur (type v) ->
  outcome (observe key v l) = Ok l' -> warned key l' = 1.
Proof.
  intros H Hc. rewrite (observe_conflict _ _ _ _ H Hc). simpl. intros [= <-].
  unfold warned. simpl.
  destruct (decide (warnings l !! key = None)) as [|Hold].
  - by rewrite lookup_insert_eq.
  - by destruct (warnings l !! key).
Qed.

Section RunWarnings.

Variable dotted_lookup : pyval -> string -> result pyval.

Local Abbreviation walk := (walk dotted_lookup).
Local Abbreviation resolved := (resolved dotted_lookup).
Local Abbreviation key_log := (key_log dotted_lookup).

Lemma warned_fresh key : warned key fresh = 0.
Proof. done. Qed.

(** A walk that meets a conflict logs exactly one warning, whatever comes
    before and after. *)
Lemma walk_conflict_warnings key before sample after l cur v :
  outcome (walk key before fresh) = Ok l ->
  size (samples l) < NUM_EXAMPLE_VALUES ->
  resolved key sample = Ok v -> is_none v = false ->
  sample_type l = Some cur -> conflicting cur (type v) ->
  count_warnings (logged (walk key (before ++ sample :: after) fresh)) = 1.
Proof.
  intros Hl Hlt Hres Hv Hcur Hc.
  rewrite walk_app, logged_bind, Hl, count_warnings_app.
  pose proof (walk_warnings dotted_lookup key before fresh l Hl) as Hbefore.
  rewrite warned_fresh in Hbefore.
  rewrite (walk_observes _ _ _ _ _ _ Hlt Hres Hv), logged_bind, count_warnings_app.
  destruct (observe_returns key v l) as [l1 Hl1]. rewrite Hl1.
  pose proof (observe_warnings _ _ _ _ Hl1) as Hstep.
  pose proof (observe_conflict_warned _ _ _ _ _ Hcur Hc Hl1) as Hone.
  pose proof (walk_warnings_bound dotted_lookup key after l1) as Hafter.
  lia.
Qed.

Lemma count_warnings_debug msg : count_warnings [LogRecord DEBUG msg] = 0.
Proof. done. Qed.

Lemma count_warnings_key_log random_sample key :
  count_warnings (key_log random_sample key)
  = if eligible key then count_warnings (logged (walk key random_sample fresh)) else 0.
Proof.
  destruct (eligible key) eqn:Hkey.
  - destruct (key_log_eligible dotted_lookup random_sample key Hkey) as [msg ->].
    change (LogRecord DEBUG ?m :: ?w) with ([LogRecord DEBUG m] ++ w).
    rewrite !count_warnings_app, !count_warnings_debug. lia.
  - by destruct (key_log_ineligible dotted_lookup random_sample key Hkey) as [msg ->].
Qed.

End RunWarnings.

(** C4 (as stated, refuted). Two fields whose samples disagree in type
    outside the pairs integer/float and list/non-list, and yet no demotion to
    [str] and no warning.  For [properties.n] the values are 1 to 5 and then
    "foo": the walk stops at the cap before it reads "foo", and the entry has
    type [<class 'int'>].  For [properties.x] the values are ["b"], "a" and 5:
    under type [list] the two scalars are wrapped, and the entry has type
    [<class 'list'>].  Neither run logs a warning. *)
Lemma C4_counterexample :
  (values nested_lookup "properties.n" five_numbers_then_foo
   = [VInt 1; VInt 2; VInt 3; VInt 4; VInt 5; VStr "foo"]
   ∧ conflicting (type (VInt 5)) (type (VStr "foo"))
   ∧ ∃ sch,
       outcome (get_schema nested_lookup "docs" ["properties.n"] five_numbers_then_foo)
       = Ok sch
       ∧ getitem (fields sch) "properties.n"
         = Some (mkSchemaField "default" "<class 'int'>" None
                   (Some (elements ({["1"; "2"; "3"; "4"; "5"]} : gset string))))
       ∧ count_warnings
           (logged (get_schema nested_lookup "docs" ["properties.n"]
                      five_numbers_then_foo)) = 0)
  ∧ (values nested_lookup "properties.x" list_a_five
     = [VList [VStr "b"]; VStr "a"; VInt 5]
     ∧ conflicting (type (VStr "a")) (type (VInt 5))
     ∧ ∃ sch,
         outcome (get_schema nested_lookup "docs" ["properties.x"] list_a_five) = Ok sch
         ∧ getitem (fields sch) "properties.x"
           = Some (mkSchemaField "default" "<class 'list'>" None
                     (Some (elements ({["['b']"; "['a']"; "[5]"]} : gset string))))
         ∧ count_warnings
             (logged (get_schema nested_lookup "docs" ["properties.x"] list_a_five)) = 0).
Proof.
  split; (split; [reflexivity|]);
    (split; [unfold conflicting; simpl; intuition congruence|]);
    (eexists; split; [apply get_schema_outcome|]);
    split; vm_compute; reflexivity.
Qed.

(** C4 (amended). When a walk, below the cap, meets a value whose type disagrees
    with the current type outside the pairs integer/float and list/non-list,
    the observation returns without raising, sets the type to [str], rewrites
    every example [x] to [str(x)] (the examples are texts, so they stay as they
    are) and adds the text of the value.  The walk as a whole then has logged
    exactly one warning, whatever follows, and so has the pass of the key; no
    walk logs more than one; [get_schema] returns a schema, and its log is the
    opening record followed by the records of each key's pass.  For samples
    that resolve [properties.x] to 1 and then to "foo" the entry has type
    [<class 'str'>] and exactly the examples "1" and "foo", and the pass of
    the key logs one warning. *)
Theorem C4_type_conflict_demotes_to_str
    (dotted_lookup : pyval -> string -> result pyval) (key : string)
    (before after : list (dict pyval)) (sample : dict pyval) (l : locals)
    (cur : pytype) (v : pyval) (index : string) (mapping_keys : list string)
    (random_sample : list (dict pyval)) (first second : dict pyval) :
  (outcome (walk dotted_lookup key before fresh) = Ok l ->
   size (samples l) < NUM_EXAMPLE_VALUES ->
   resolved dotted_lookup key sample = Ok v -> is_none v = false ->
   sample_type l = Some cur -> conflicting cur (type v) ->
   (∃ l', outcome (observe key v l) = Ok l'
          ∧ sample_type l' = Some TStr
          ∧ samples l' = {[str v]} ∪ set_map (fun x => str (VStr x)) (samples l)
          ∧ samples l' = {[str v]} ∪ samples l)
   ∧ count_warnings (logged (walk dotted_lookup key (before ++ sample :: after) fresh)) = 1
   ∧ (eligible key = true ->
      count_warnings (key_log dotted_lookup (before ++ sample :: after) key) = 1))
  ∧ count_warnings (logged (walk dotted_lookup key random_sample fresh)) ≤ 1
  ∧ count_warnings (key_log dotted_lookup random_sample key) ≤ 1
  ∧ (∃ sch,
       outcome (get_schema dotted_lookup index mapping_keys random_sample) = Ok sch
       ∧ logged (get_schema dotted_lookup index mapping_keys random_sample)
         = LogRecord DEBUG ("Getting schema for index " +:+ index)
           :: List.concat (map (key_log dotted_lookup random_sample) mapping_keys))
  ∧ ("properties.x" ∈ mapping_keys ->
     resolved dotted_lookup "properties.x" first = Ok (VInt 1) ->
     resolved dotted_lookup "properties.x" second = Ok (VStr "foo") ->
     ∃ sch ex,
       outcome (get_schema dotted_lookup index mapping_keys [first; second]) = Ok sch
       ∧ getitem (fields sch) "properties.x"
         = Some (mkSchemaField "default" "<class 'str'>" None (Some ex))
       ∧ ex ≡ₚ ["1"; "foo"]
       ∧ count_warnings (key_log dotted_lookup [first; second] "properties.x") = 1).
Proof.
  assert (Hbound : ∀ rs, count_warnings (logged (walk dotted_lookup key rs fresh)) ≤ 1).
  { intros rs. pose proof (walk_warnings_bound dotted_lookup key rs fresh). lia. }
  split; [|split; [|split; [|split]]].
  - intros Hl Hlt Hres Hv Hcur Hc.
    pose proof (walk_conflict_warnings dotted_lookup key before sample after l cur v
                  Hl Hlt Hres Hv Hcur Hc) as Hone.
    split; [|split; [done|]].
    + rewrite (observe_conflict _ _ _ _ Hcur Hc). eexists. split; [done|]. simpl.
      by rewrite set_map_str_id.
    + intros Hkey. by rewrite count_warnings_key_log, Hkey.
  - apply Hbound.
  - rewrite count_warnings_key_log. destruct (eligible key); [apply Hbound|lia].
  - eexists. split; [apply get_schema_outcome|apply get_schema_logged].
  - intros Hin H1 H2.
    assert (Hc : conflicting TInt TStr) by (unfold conflicting; intuition congruence).
    destruct (get_schema_entry dotted_lookup index mapping_keys [first; second]
                "properties.x" (Locals ({["foo"]} ∪ {["1"]}) (Some TStr)
                                  (<["properties.x" := true]> ∅))
                eq_refl Hin) as (sch & Hsch & Hfield).
    { rewrite (walk_first _ _ _ _ _ H1 eq_refl).
      meet H2. rewrite outcome_bind, (observe_conflict _ _ _ TInt) by done.
      simpl. destruct (decide _) as [|Hold]; [done|].
      by rewrite lookup_empty in Hold. }
    { apply union_singleton_nonempty. }
    exists sch, (elements ({["foo"]} ∪ {["1"]} : gset string)).
    split; [done|]. split; [exact Hfield|]. split.
    + apply elements_of_list; [by vm_compute|].
      by apply (bool_decide_unpack _); vm_compute.
    + rewrite count_warnings_key_log. simpl eligible. cbv iota.
      apply (walk_conflict_warnings dotted_lookup "properties.x" [first] second []
               (Locals {["1"]} (Some TInt) ∅) TInt (VStr "foo")); try done.
      * by rewrite (walk_first _ _ _ _ _ H1 eq_refl).
      * below_cap.
Qed.

Lemma C4_witness :
  outcome (walk nested_lookup "properties.x" [hit (property "x" (VInt 1))] fresh)
  = Ok (Locals {["1"]} (Some TInt) ∅)
  ∧ conflicting TInt (type (VStr "foo"))
  ∧ count_warnings
      (logged (walk nested_lookup "properties.x"
                 ([hit (property "x" (VInt 1))]
                  ++ hit (property "x" (VStr "foo")) :: [hit (property "x" (VBool true))])
                 fresh)) = 1
  ∧ ∃ sch ex,
      outcome (get_schema nested_lookup "docs" ["properties.x"] one_foo) = Ok sch
      ∧ getitem (fields sch) "properties.x"
        = Some (mkSchemaField "default" "<class 'str'>" None (Some ex))
      ∧ ex ≡ₚ ["1"; "foo"]
      ∧ count_warnings (key_log nested_lookup one_foo "properties.x") = 1.
Proof.
  assert (Hl : outcome (walk nested_lookup "properties.x"
                          [hit (property "x" (VInt 1))] fresh)
               = Ok (Locals {["1"]} (Some TInt) ∅)) by (vm_compute; reflexivity).
  assert (Hlt : size (samples (Locals {["1"]} (Some TInt) ∅)) < NUM_EXAMPLE_VALUES)
    by below_cap.
  assert (Hc : conflicting TInt (type (VStr "foo")))
    by (unfold conflicting; simpl; intuition congruence).
  assert (Hin : "properties.x" ∈ ["properties.x"]) by (by left).
  destruct (C4_type_conflict_demotes_to_str nested_lookup "properties.x"
              [hit (property "x" (VInt 1))] [hit (property "x" (VBool true))]
              (hit (property "x" (VStr "foo"))) (Locals {["1"]} (Some TInt) ∅)
              TInt (VStr "foo") "docs" ["properties.x"] one_foo
              (hit (property "x" (VInt 1))) (hit (property "x" (VStr "foo"))))
    as (Hstep & _ & _ & _ & Hrun).
  destruct (Hstep Hl Hlt eq_refl eq_refl eq_refl Hc) as (_ & Hone & _).
  split; [done|]. split; [done|]. split; [done|].
  by apply Hrun.
Defined.

(** ** The legacy representation *)

Lemma to_schema_loop (items : dict SchemaField) (acc : list SchemaField) :
  fold_left (fun acc item => acc ++ [with_name (snd item) (fst item)]) items acc
  = acc ++ map (fun item => with_name (snd item) (fst item)) items.
Proof.
  revert acc. induction items as [|item items IH]; intros acc; simpl.
  - by rewrite app_nil_r.
  - by rewrite IH, <- app_assoc.
Qed.

(** C9. [to_schema] returns one entry per item of [fields], in the order
    of the items: the entry's name is the item's key, and its type,
    description and examples are those of the item's value. *)
Theorem C9_to_schema_rekeys (self : OpenSearchSchema) :
  List.length (schema_fields (to_schema self)) = List.length (fields self)
  ∧ Forall2 (fun item entry =>
               name entry = fst item
               ∧ field_type entry = field_type (snd item)
               ∧ description entry = description (snd item)
               ∧ examples entry = examples (snd item))
            (fields self) (schema_fields (to_schema self)).
Proof.
  unfold to_schema. simpl. rewrite to_schema_loop. simpl.
  split; [by rewrite length_map|].
  induction (fields self) as [|item items IH]; simpl; [constructor|].
  by constructor.
Qed.

(** ** The Limit transform *)

Section LimitFacts.

Variable Document : Type.
Variable isinstance_MetadataDocument : Document -> bool.

Local Abbreviation is_data := (fun doc => negb (isinstance_MetadataDocument doc)).
Local Abbreviation local_execute_loop := (local_execute_loop isinstance_MetadataDocument).

Lemma local_execute_loop_take limit all_docs filtered_docs count :
  local_execute_loop limit all_docs filtered_docs count
  = filtered_docs ++ take (Z.to_nat (limit - count)) (List.filter is_data all_docs).
Proof.
  revert filtered_docs count.
  induction all_docs as [|doc rest IH]; intros filtered_docs count; simpl.
  { by rewrite take_nil, app_nil_r. }
  destruct (isinstance_MetadataDocument doc); simpl; [apply IH|].
  destruct (Z.gtb_spec (count + 1) limit) as [Hover|Hroom].
  - replace (Z.to_nat (limit - count)) with 0 by lia. by rewrite app_nil_r.
  - rewrite IH, <- app_assoc. simpl.
    replace (Z.to_nat (limit - count)) with (S (Z.to_nat (limit - (count + 1)))) by lia.
    done.
Qed.

End LimitFacts.

(** C10. For every list of documents and every limit [n], a maximum number
    of records, [local_execute] returns the first [n] documents that are not
    [MetadataDocument]s, in their order: at most [n] documents, a prefix of
    the non-metadata documents, and no [MetadataDocument] among them.  The
    equation and the prefix hold for every integer [n]; a negative [n] gives
    the empty list. *)
Theorem C10_limit_keeps_first_n_data_documents
    (Document : Type) (isinstance_MetadataDocument : Document -> bool)
    (limit : Z) (all_docs : list Document) :
  local_execute isinstance_MetadataDocument limit all_docs
  = take (Z.to_nat limit)
      (List.filter (fun doc => negb (isinstance_MetadataDocument doc)) all_docs)
  ∧ (Z.of_nat (List.length (local_execute isinstance_MetadataDocument limit all_docs))
     ≤ Z.max limit 0)%Z
  ∧ ((0 ≤ limit)%Z ->
     (Z.of_nat (List.length (local_execute isinstance_MetadataDocument limit all_docs))
      ≤ limit)%Z)
  ∧ local_execute isinstance_MetadataDocument limit all_docs
    `prefix_of` List.filter (fun doc => negb (isinstance_MetadataDocument doc)) all_docs
  ∧ Forall (fun doc => isinstance_MetadataDocument doc = false)
      (local_execute isinstance_MetadataDocument limit all_docs).
Proof.
  assert (Heq : local_execute isinstance_MetadataDocument limit all_docs
                = take (Z.to_nat limit)
                    (List.filter (fun doc => negb (isinstance_MetadataDocument doc))
                       all_docs)).
  { unfold local_execute. rewrite local_execute_loop_take. simpl.
    by rewrite Z.sub_0_r. }
  rewrite Heq. split; [done|].
  rewrite length_take.
  split; [lia|]. split; [lia|]. split.
  - apply prefix_take.
  - apply Forall_take, Forall_forall. intros doc Hdoc.
    apply list_elem_of_In, filter_In in Hdoc as [_ Hdata].
    by destruct (isinstance_MetadataDocument doc).
Qed.

Lemma C10_witness :
  (0 ≤ 2)%Z
  ∧ (Z.of_nat (List.length (local_execute fst 2%Z four_docs)) ≤ 2)%Z
  ∧ local_execute fst 2%Z four_docs = [(false, 1); (false, 3)].
Proof.
  destruct (C10_limit_keeps_first_n_data_documents (bool * nat) fst 2%Z four_docs)
    as (Heq & _ & Hle & _).
  split; [lia|]. split; [apply Hle; lia|]. by rewrite Heq.
Defined.

(** ** Two more properties of [get_schema] *)

(** X1. Idempotence of promotion: a value of the current type leaves the
    type and the warnings as they are, logs nothing and only adds its own
    text to the examples. *)
Theorem X1_same_type_changes_nothing (key : string) (v : pyval) (l : locals) :
  sample_type l = Some (type v) ->
  observe key v l = ret (Locals ({[str v]} ∪ samples l) (sample_type l) (warnings l)).
Proof.
  intros H. unfold observe. rewrite H.
  repeat (destruct (decide _); [exfalso; intuition congruence|]).
  unfold add_sample. by rewrite H.
Qed.

Lemma X1_witness :
  observe "properties.age" (VInt 3) (Locals {["5"]} (Some TInt) ∅)
  = ret (Locals ({["3"]} ∪ {["5"]}) (Some TInt) ∅).
Proof.
  exact (X1_same_type_changes_nothing "properties.age" (VInt 3)
           (Locals {["5"]} (Some TInt) ∅) eq_refl).
Defined.

(** X2. Every key of the returned schema is the synthetic key or an eligible
    key of the listing, and an entry whose key is not the synthetic one has
    the default name, no description and between one and five examples. *)
Theorem X2_schema_keys_are_eligible
    (dotted_lookup : pyval -> string -> result pyval) (index : string)
    (mapping_keys : list string) (random_sample : list (dict pyval))
    (sch : OpenSearchSchema) (key : string) (field : SchemaField) :
  outcome (get_schema dotted_lookup index mapping_keys random_sample) = Ok sch ->
  getitem (fields sch) key = Some field ->
  (key = "text_representation" ∧ field = text_representation_field)
  ∨ (key ∈ mapping_keys ∧ endswith key ".keyword" = false
     ∧ startswith key "properties." = true
     ∧ name field = "default" ∧ description field = None
     ∧ ∃ ex, examples field = Some ex ∧ 1 ≤ List.length ex ≤ 5).
Proof.
  intros Hsch Hfield.
  pose proof Hfield as Hget. rewrite (get_schema_getitem _ _ _ _ _ _ Hsch) in Hget.
  destruct (bool_decide_reflect (key ∈ mapping_keys)) as [Hin|]; simpl in Hget;
    [destruct (eligible key) eqn:Hkey; simpl in Hget|].
  - destruct (contribution dotted_lookup random_sample key) as [field'|] eqn:Hc.
    + injection Hget as <-. right.
      apply contribution_Some in Hc as (l & Hl & Hne & ->).
      unfold eligible in Hkey. apply andb_prop in Hkey as [Hsuffix Hprefix].
      apply negb_true_iff in Hsuffix.
      repeat split; try done.
      exists (elements (samples l)). split; [done|].
      change (List.length (elements (samples l))) with (size (samples l)).
      apply size_pos_nonempty in Hne.
      assert (Hcap : size (samples l) ≤ NUM_EXAMPLE_VALUES).
      { apply (walk_size dotted_lookup key random_sample fresh); [|done].
        rewrite size_fresh. unfold NUM_EXAMPLE_VALUES. lia. }
      unfold NUM_EXAMPLE_VALUES in Hcap. lia.
    + destruct (decide _) as [<-|]; [|done]. injection Hget as <-. by left.
  - destruct (decide _) as [<-|]; [|done]. injection Hget as <-. by left.
  - destruct (decide _) as [<-|]; [|done]. injection Hget as <-. by left.
Qed.

Lemma X2_witness :
  ∃ sch,
    outcome (get_schema nested_lookup "docs" ["properties.age"; "properties.age.keyword"]
               ages) = Ok sch
    ∧ ∃ field,
        getitem (fields sch) "properties.age" = Some field
        ∧ "properties.age" ∈ ["properties.age"; "properties.age.keyword"]
        ∧ ∃ ex, examples field = Some ex ∧ 1 ≤ List.length ex ≤ 5.
Proof.
  exists (mkOpenSearchSchema
            (fold_left (record_key nested_lookup ages)
               ["properties.age"; "properties.age.keyword"] seed)).
  assert (Hsch : outcome (get_schema nested_lookup "docs"
                            ["properties.age"; "properties.age.keyword"] ages)
                 = Ok (mkOpenSearchSchema
                         (fold_left (record_key nested_lookup ages)
                            ["properties.age"; "properties.age.keyword"] seed)))
    by apply get_schema_outcome.
  split; [done|].
  exists (mkSchemaField "default" "<class 'float'>" None
            (Some (elements ({["5"; "7.5"; "3"]} : gset string)))).
  assert (Hfield : getitem (fold_left (record_key nested_lookup ages)
                              ["properties.age"; "properties.age.keyword"] seed)
                     "properties.age"
                   = Some (mkSchemaField "default" "<class 'float'>" None
                             (Some (elements ({["5"; "7.5"; "3"]} : gset string)))))
    by (vm_compute; reflexivity).
  split; [done|].
  destruct (X2_schema_keys_are_eligible nested_lookup "docs"
              ["properties.age"; "properties.age.keyword"] ages _ "properties.age" _
              Hsch Hfield) as [[Habsurd _]|(Hin & _ & _ & _ & _ & Hex)]; [done|].
  by split.
Defined.

(** ** More on the Limit and Filter transforms *)

Section LimitMore.

Variable Document : Type.
Variable isinstance_MetadataDocument : Document -> bool.

Local Abbreviation is_data := (fun doc => negb (isinstance_MetadataDocument doc)).

Lemma local_execute_take limit all_docs :
  local_execute isinstance_MetadataDocument limit all_docs
  = take (Z.to_nat limit) (List.filter is_data all_docs).
Proof.
  unfold local_execute. rewrite local_execute_loop_take. simpl. by rewrite Z.sub_0_r.
Qed.

Lemma filter_is_data_take n (docs : list Document) :
  List.filter is_data (take n (List.filter is_data docs)) = take n (List.filter is_data docs).
Proof.
  apply forallb_filter_id, forallb_forall. intros doc Hdoc.
  apply list_elem_of_In, (subseteq_take n), list_elem_of_In in Hdoc.
  by apply filter_In in Hdoc as [_ ?].
Qed.

End LimitMore.

Section ExecuteFacts.

Variable Row : Type.
Variable Document : Type.
Variable deserialize : Row -> Document.
Variable isinstance_MetadataDocument : Document -> bool.

Lemma execute_loop_take limit rows rayDocs count :
  execute_loop deserialize isinstance_MetadataDocument limit rows rayDocs count
  = rayDocs
    ++ take (Z.to_nat (limit - count))
         (List.filter (fun doc => negb (isinstance_MetadataDocument (deserialize doc))) rows).
Proof.
  revert rayDocs count.
  induction rows as [|doc rest IH]; intros rayDocs count; simpl.
  { by rewrite take_nil, app_nil_r. }
  destruct (isinstance_MetadataDocument (deserialize doc)); simpl; [apply IH|].
  destruct (Z.gtb_spec (count + 1) limit) as [Hover|Hroom].
  - replace (Z.to_nat (limit - count)) with 0 by lia. by rewrite app_nil_r.
  - rewrite IH, <- app_assoc. simpl.
    by replace (Z.to_nat (limit - count)) with (S (Z.to_nat (limit - (count + 1)))) by lia.
Qed.

End ExecuteFacts.

(** X3. [Limit.execute] and [Limit.local_execute] are the same transform:
    the rows [execute] keeps are the first [limit] rows whose document is not
    a [MetadataDocument], they deserialize to what [local_execute] returns on
    the deserialized rows, and no kept row holds a [MetadataDocument]. *)
Theorem X3_execute_agrees_with_local_execute
    (Row Document : Type) (deserialize : Row -> Document)
    (isinstance_MetadataDocument : Document -> bool) (limit : Z) (rows : list Row) :
  map deserialize (execute deserialize isinstance_MetadataDocument limit rows)
  = local_execute isinstance_MetadataDocument limit (map deserialize rows)
  ∧ execute deserialize isinstance_MetadataDocument limit rows
    = take (Z.to_nat limit)
        (List.filter (fun doc => negb (isinstance_MetadataDocument (deserialize doc))) rows)
  ∧ Forall (fun doc => isinstance_MetadataDocument (deserialize doc) = false)
      (execute deserialize isinstance_MetadataDocument limit rows).
Proof.
  assert (Heq : execute deserialize isinstance_MetadataDocument limit rows
                = take (Z.to_nat limit)
                    (List.filter
                       (fun doc => negb (isinstance_MetadataDocument (deserialize doc)))
                       rows)).
  { unfold execute. rewrite execute_loop_take. simpl. by rewrite Z.sub_0_r. }
  rewrite Heq. split; [|split; [done|]].
  - rewrite local_execute_take, filter_map_swap.
    apply (fmap_take deserialize).
  - apply Forall_take, Forall_forall. intros doc Hdoc.
    apply list_elem_of_In, filter_In in Hdoc as [_ Hdata].
    by destruct (isinstance_MetadataDocument (deserialize doc)).
Qed.

(** X4. Two limits in a row are the smaller limit: applying
    [local_execute] with limit [n] to the result of [local_execute] with limit
    [m] gives what limit [min n m] gives, so applying the same limit twice
    changes nothing. *)
Theorem X4_limit_of_limit_is_smaller_limit
    (Document : Type) (isinstance_MetadataDocument : Document -> bool)
    (n m : Z) (all_docs : list Document) :
  local_execute isinstance_MetadataDocument n
    (local_execute isinstance_MetadataDocument m all_docs)
  = local_execute isinstance_MetadataDocument (Z.min n m) all_docs
  ∧ local_execute isinstance_MetadataDocument n
      (local_execute isinstance_MetadataDocument n all_docs)
    = local_execute isinstance_MetadataDocument n all_docs.
Proof.
  rewrite !local_execute_take, !filter_is_data_take, !take_take.
  split; f_equal; lia.
Qed.

(** X5. A limit that is at least the number of documents that are not
    [MetadataDocument]s does not truncate, yet the metadata documents are
    still dropped: the result is all the other documents, in order. *)
Theorem X5_large_limit_still_drops_metadata
    (Document : Type) (isinstance_MetadataDocument : Document -> bool)
    (limit : Z) (all_docs : list Document) :
  (Z.of_nat (List.length
               (List.filter (fun doc => negb (isinstance_MetadataDocument doc)) all_docs))
   ≤ limit)%Z ->
  local_execute isinstance_MetadataDocument limit all_docs
  = List.filter (fun doc => negb (isinstance_MetadataDocument doc)) all_docs.
Proof.
  intros Hlarge. rewrite local_execute_take. apply take_ge. lia.
Qed.

Lemma X5_witness :
  (Z.of_nat (List.length (List.filter (fun doc : bool * nat => negb (fst doc)) four_docs))
   ≤ 3)%Z
  ∧ local_execute fst 3%Z four_docs = [(false, 1); (false, 3); (false, 4)].
Proof.
  assert (Hlarge : (Z.of_nat (List.length
                                (List.filter (fun doc : bool * nat => negb (fst doc))
                                   four_docs)) ≤ 3)%Z) by (simpl; lia).
  split; [done|].
  by rewrite (X5_large_limit_still_drops_metadata (bool * nat) fst 3%Z four_docs Hlarge).
Defined.

(** X6. Once the documents read so far hold [limit] documents that are not
    [MetadataDocument]s, whatever follows is ignored. *)
Theorem X6_documents_after_the_limit_are_ignored
    (Document : Type) (isinstance_MetadataDocument : Document -> bool)
    (limit : Z) (before after : list Document) :
  (limit
   ≤ Z.of_nat (List.length
                 (List.filter (fun doc => negb (isinstance_MetadataDocument doc)) before)))%Z ->
  local_execute isinstance_MetadataDocument limit (before ++ after)
  = local_execute isinstance_MetadataDocument limit before.
Proof.
  intros Hfull. rewrite !local_execute_take, List.filter_app.
  apply take_app_le. lia.
Qed.

Lemma X6_witness :
  (2 ≤ Z.of_nat (List.length (List.filter (fun doc : bool * nat => negb (fst doc))
                                four_docs)))%Z
  ∧ local_execute fst 2%Z (four_docs ++ [(false, 5); (true, 6)])
    = local_execute fst 2%Z four_docs.
Proof.
  assert (Hfull : (2 ≤ Z.of_nat (List.length
                                   (List.filter (fun doc : bool * nat => negb (fst doc))
                                      four_docs)))%Z) by (simpl; lia).
  split; [done|].
  exact (X6_documents_after_the_limit_are_ignored (bool * nat) fst 2%Z four_docs
           [(false, 5); (true, 6)] Hfull).
Defined.

Section FilterFacts.

Variable Document : Type.

Lemma filter_batch_loop (f : Document -> bool) docs kept :
  fold_left (fun kept d => if f d then kept ++ [d] else kept) docs kept
  = kept ++ List.filter f docs.
Proof.
  revert kept. induction docs as [|d docs IH]; intros kept; simpl.
  - by rewrite app_nil_r.
  - rewrite IH. destruct (f d); [by rewrite <- app_assoc|done].
Qed.

Lemma filter_batch_filter (f : Document -> bool) docs :
  filter_batch f docs = List.filter f docs.
Proof. unfold filter_batch. by rewrite filter_batch_loop. Qed.

Lemma filter_sublist (f : Document -> bool) docs : List.filter f docs `sublist_of` docs.
Proof.
  induction docs as [|d docs IH]; simpl; [constructor|].
  destruct (f d); by constructor.
Qed.

End FilterFacts.

(** X7. The batch function of [Filter] keeps exactly the documents of the
    batch on which [f] answers true, in their order and as often as they
    occur; it returns the batch unchanged exactly when [f] answers true on
    every document, and the empty list exactly when it answers true on
    none. *)
Theorem X7_filter_keeps_exactly_the_accepted
    (Document : Type) (f : Document -> bool) (docs : list Document) :
  (∀ d, d ∈ filter_batch f docs ↔ d ∈ docs ∧ f d = true)
  ∧ filter_batch f docs `sublist_of` docs
  ∧ (filter_batch f docs = docs ↔ Forall (fun d => f d = true) docs)
  ∧ (filter_batch f docs = [] ↔ Forall (fun d => f d = false) docs).
Proof.
  rewrite filter_batch_filter. split; [|split; [|split]].
  - intros d. by rewrite !list_elem_of_In, filter_In.
  - apply filter_sublist.
  - split.
    + intros Heq. apply Forall_forall. intros d Hd.
      rewrite <- Heq in Hd. by apply list_elem_of_In, filter_In in Hd as [_ ?].
    + intros Hall. apply forallb_filter_id, forallb_forall. intros d Hd.
      apply list_elem_of_In in Hd. by eapply Forall_forall in Hall.
  - induction docs as [|d docs IH]; simpl.
    + split; [constructor|done].
    + destruct (f d) eqn:Hd.
      * split; [done|]. intros Hall. apply Forall_cons in Hall as [? _]. congruence.
      * rewrite IH. split; [by constructor|]. by intros [_ ?]%Forall_cons.
Qed.

(** X8. Filtering batch by batch is filtering the whole: the batch
    function of [Filter] distributes over the concatenation of batches.  Two
    filters in a row keep what the conjunction of their tests keeps, in
    either order, and the same filter twice is the filter once. *)
Theorem X8_filter_by_batch_and_in_sequence
    (Document : Type) (f g : Document -> bool) (first_batch second_batch : list Document) :
  filter_batch f (first_batch ++ second_batch)
  = filter_batch f first_batch ++ filter_batch f second_batch
  ∧ filter_batch g (filter_batch f first_batch)
    = filter_batch (fun d => f d && g d) first_batch
  ∧ filter_batch g (filter_batch f first_batch)
    = filter_batch f (filter_batch g first_batch)
  ∧ filter_batch f (filter_batch f first_batch) = filter_batch f first_batch.
Proof.
  rewrite !filter_batch_filter.
  assert (Hseq : ∀ (p q : Document -> bool) l,
             List.filter q (List.filter p l) = List.filter (fun d => p d && q d) l).
  { intros p q l. induction l as [|d l IH]; simpl; [done|].
    destruct (p d); simpl; [|done]. destruct (q d); by rewrite IH. }
  split; [apply List.filter_app|]. split; [apply Hseq|]. split.
  - rewrite !Hseq. apply filter_ext. intros d. apply andb_comm.
  - rewrite Hseq. apply filter_ext. intros d. by destruct (f d).
Qed.

(** ** The shape of the returned schema *)

Lemma keys_setitem {V} (d : dict V) k v :
  keys (setitem d k v) = if bool_decide (k ∈ keys d) then keys d else keys d ++ [k].
Proof.
  unfold keys. induction d as [|[k0 v0] d IH]; simpl; [done|].
  destruct (decide (k0 = k)) as [->|Hne]; simpl.
  - rewrite bool_decide_eq_true_2; [done|by left].
  - rewrite IH. destruct (bool_decide_reflect (k ∈ map fst d)) as [Hin|Hnin].
    + rewrite bool_decide_eq_true_2; [done|by right].
    + rewrite bool_decide_eq_false_2; [done|].
      rewrite elem_of_cons. intuition congruence.
Qed.

Lemma getitem_NoDup {V} (d : dict V) k v :
  NoDup (keys d) -> (k, v) ∈ d -> getitem d k = Some v.
Proof.
  unfold keys. induction d as [|[k0 v0] d IH]; simpl; intros Hnd Hin.
  { by apply elem_of_nil in Hin. }
  apply NoDup_cons in Hnd as [Hfresh Hnd].
  apply elem_of_cons in Hin as [[= -> ->]|Hin].
  - by destruct (decide (k0 = k0)).
  - destruct (decide (k0 = k)) as [->|]; [|by apply IH].
    exfalso. apply Hfresh. apply list_elem_of_fmap. by exists (k, v).
Qed.

Section SchemaShape.

Variable dotted_lookup : pyval -> string -> result pyval.
Variable random_sample : list (dict pyval).

Local Abbreviation contribution := (contribution dotted_lookup random_sample).
Local Abbreviation record_key := (record_key dotted_lookup random_sample).

Lemma keys_record_key d key :
  keys (record_key d key)
  = if eligible key && bool_decide (is_Some (contribution key))
       && negb (bool_decide (key ∈ keys d))
    then keys d ++ [key] else keys d.
Proof.
  unfold record_key. destruct (eligible key); [|done].
  destruct (contribution key) as [field|].
  - rewrite keys_setitem, (bool_decide_eq_true_2 (is_Some (Some field))); [|by eexists].
    by destruct (bool_decide _).
  - rewrite (bool_decide_eq_false_2 (is_Some None)); [done|]. by intros [? ?].
Qed.

Lemma NoDup_keys_record_key d key : NoDup (keys d) -> NoDup (keys (record_key d key)).
Proof.
  intros Hnd. rewrite keys_record_key.
  destruct (eligible key); [|done].
  destruct (bool_decide (is_Some _)); [|done].
  destruct (bool_decide_reflect (key ∈ keys d)) as [|Hfresh]; [done|]. simpl.
  apply NoDup_app. split; [done|]. split; [|apply NoDup_singleton].
  intros k Hk ->%list_elem_of_singleton. done.
Qed.

Lemma NoDup_keys_fold_record_key mapping_keys d :
  NoDup (keys d) -> NoDup (keys (fold_left record_key mapping_keys d)).
Proof.
  revert d. induction mapping_keys as [|key rest IH]; intros d Hnd; [done|].
  simpl. by apply IH, NoDup_keys_record_key.
Qed.

Lemma keys_fold_record_key mapping_keys d :
  NoDup mapping_keys ->
  (∀ k, k ∈ mapping_keys -> eligible k = true -> k ∉ keys d) ->
  keys (fold_left record_key mapping_keys d)
  = keys d
    ++ List.filter (fun k => eligible k && bool_decide (is_Some (contribution k)))
         mapping_keys.
Proof.
  revert d. induction mapping_keys as [|key rest IH]; intros d Hnd Hfresh; simpl.
  { by rewrite app_nil_r. }
  apply NoDup_cons in Hnd as [Hkey Hnd].
  rewrite IH; [|done|].
  - rewrite keys_record_key.
    destruct (eligible key) eqn:Helig; simpl; [|done].
    destruct (bool_decide (is_Some (contribution key))); simpl; [|done].
    rewrite bool_decide_eq_false_2; [|apply Hfresh; [by left|done]].
    simpl. by rewrite <- app_assoc.
  - intros k Hk Helig. rewrite keys_record_key.
    assert (k ∉ keys d) by (apply Hfresh; [by right|done]).
    destruct (_ && _ && _); [|done].
    rewrite elem_of_app, list_elem_of_singleton. intros [?| ->]; done.
Qed.

Lemma fold_record_key_nothing mapping_keys d :
  (∀ k, k ∈ mapping_keys -> eligible k = true -> contribution k = None) ->
  fold_left record_key mapping_keys d = d.
Proof.
  revert d. induction mapping_keys as [|key rest IH]; intros d Hnone; [done|].
  simpl. rewrite IH; [|intros k Hk; apply Hnone; by right].
  unfold record_key. destruct (eligible key) eqn:Helig; [|done].
  rewrite Hnone; [done|by left|done].
Qed.

End SchemaShape.

(** X9. With a listing that names each key once, the keys of the returned
    schema are ["text_representation"] followed by the eligible keys whose
    walk gave at least one example, in the order of the listing. *)
Theorem X9_fields_follow_the_listing
    (dotted_lookup : pyval -> string -> result pyval) (index : string)
    (mapping_keys : list string) (random_sample : list (dict pyval)) :
  NoDup mapping_keys ->
  ∃ sch,
    outcome (get_schema dotted_lookup index mapping_keys random_sample) = Ok sch
    ∧ keys (fields sch)
      = "text_representation"
        :: List.filter
             (fun k => eligible k
                       && bool_decide (is_Some (contribution dotted_lookup random_sample k)))
             mapping_keys.
Proof.
  intros Hnd. eexists. split; [apply get_schema_outcome|]. simpl.
  rewrite keys_fold_record_key; [done|done|].
  intros k _ Helig Hk. apply list_elem_of_singleton in Hk.
  by apply eligible_not_text_representation in Helig.
Qed.

Lemma X9_witness :
  NoDup ["properties.missing"; "properties.age.keyword"; "properties.age"; "_id"]
  ∧ ∃ sch,
      outcome (get_schema nested_lookup "docs"
                 ["properties.missing"; "properties.age.keyword"; "properties.age"; "_id"]
                 ages) = Ok sch
      ∧ keys (fields sch) = ["text_representation"; "properties.age"].
Proof.
  assert (Hnd : NoDup ["properties.missing"; "properties.age.keyword";
                       "properties.age"; "_id"])
    by (by apply (bool_decide_unpack _); vm_compute).
  split; [done|].
  destruct (X9_fields_follow_the_listing nested_lookup "docs"
              ["properties.missing"; "properties.age.keyword"; "properties.age"; "_id"]
              ages Hnd) as (sch & Hsch & Hkeys).
  exists sch. split; [done|]. rewrite Hkeys. by vm_compute.
Defined.

(** X10. The legacy form of what [get_schema] returns loses nothing and
    names every entry by its field path: the names of [to_schema]'s entries
    are the keys of the schema, in order and without repetition, the first is
    ["text_representation"], and looking an entry's name up in the schema
    gives the field with the entry's type, description and examples. *)
Theorem X10_legacy_schema_of_get_schema
    (dotted_lookup : pyval -> string -> result pyval) (index : string)
    (mapping_keys : list string) (random_sample : list (dict pyval)) :
  ∃ sch,
    outcome (get_schema dotted_lookup index mapping_keys random_sample) = Ok sch
    ∧ map name (schema_fields (to_schema sch)) = keys (fields sch)
    ∧ NoDup (map name (schema_fields (to_schema sch)))
    ∧ (∃ others,
         schema_fields (to_schema sch)
         = mkSchemaField "text_representation" "<class 'str'>"
             (Some "Can be assumed to have all other details") None :: others)
    ∧ Forall (fun entry =>
                ∃ field,
                  getitem (fields sch) (name entry) = Some field
                  ∧ field_type entry = field_type field
                  ∧ description entry = description field
                  ∧ examples entry = examples field)
             (schema_fields (to_schema sch)).
Proof.
  eexists. split; [apply get_schema_outcome|].
  set (sch := mkOpenSearchSchema _).
  assert (Hnd : NoDup (keys (fields sch))).
  { apply NoDup_keys_fold_record_key. apply NoDup_singleton. }
  assert (Hlegacy : schema_fields (to_schema sch)
                    = map (fun item => with_name (snd item) (fst item)) (fields sch)).
  { unfold to_schema. simpl. by rewrite to_schema_loop. }
  assert (Hnames : map name (schema_fields (to_schema sch)) = keys (fields sch)).
  { rewrite Hlegacy, map_map. done. }
  split; [done|]. split; [by rewrite Hnames|]. split.
  - rewrite Hlegacy. subst sch. simpl. unfold seed.
    destruct (fold_record_key_keeps_seed dotted_lookup random_sample mapping_keys [])
      as [d' ->].
    by eexists.
  - rewrite Hlegacy. apply Forall_forall. intros entry Hentry.
    apply list_elem_of_In, in_map_iff in Hentry as ([k field] & <- & Hitem).
    exists field. simpl. split; [|done].
    apply getitem_NoDup; [done|]. by apply list_elem_of_In.
Qed.

(** X11. With an empty listing, an empty sample, or a sample whose first
    hit has no [_source], [get_schema] returns the synthetic entry alone. *)
Theorem X11_nothing_to_sample_gives_the_synthetic_entry_alone
    (dotted_lookup : pyval -> string -> result pyval) (index : string)
    (mapping_keys : list string) (random_sample : list (dict pyval)) :
  mapping_keys = [] ∨ random_sample = []
  ∨ (∃ first others, random_sample = first :: others ∧ getitem first "_source" = None) ->
  outcome (get_schema dotted_lookup index mapping_keys random_sample)
  = Ok (mkOpenSearchSchema [("text_representation", text_representation_field)]).
Proof.
  intros Hcase. rewrite get_schema_outcome. do 2 f_equal.
  apply fold_record_key_nothing. intros k Hk _.
  destruct Hcase as [->|[->|(first & others & -> & Hbare)]].
  - by apply elem_of_nil in Hk.
  - done.
  - unfold contribution. rewrite walk_raises; [done| |].
    + rewrite size_fresh. unfold NUM_EXAMPLE_VALUES. lia.
    + unfold resolved. by rewrite Hbare.
Qed.

Lemma X11_witness :
  (∃ first others,
     bare_hit :: ages = first :: others ∧ getitem first "_source" = None)
  ∧ outcome (get_schema nested_lookup "docs" ["properties.age"] (bare_hit :: ages))
    = Ok (mkOpenSearchSchema [("text_representation", text_representation_field)]).
Proof.
  assert (Hbare : ∃ first others,
             bare_hit :: ages = first :: others ∧ getitem first "_source" = None)
    by (by exists bare_hit, ages).
  split; [done|].
  apply (X11_nothing_to_sample_gives_the_synthetic_entry_alone nested_lookup "docs"
           ["properties.age"] (bare_hit :: ages)).
  by right; right.
Defined.

(** X12. The entry of a key depends on which keys the listing holds, not on
    their order or on repetitions: two listings with the same keys give
    schemas that map every key to the same entry. *)
Theorem X12_entries_do_not_depend_on_listing_order
    (dotted_lookup : pyval -> string -> result pyval) (index : string)
    (mapping_keys mapping_keys' : list string) (random_sample : list (dict pyval))
    (sch sch' : OpenSearchSchema) :
  (∀ k, k ∈ mapping_keys ↔ k ∈ mapping_keys') ->
  outcome (get_schema dotted_lookup index mapping_keys random_sample) = Ok sch ->
  outcome (get_schema dotted_lookup index mapping_keys' random_sample) = Ok sch' ->
  ∀ k, getitem (fields sch) k = getitem (fields sch') k.
Proof.
  intros Hsame Hsch Hsch' k.
  rewrite (get_schema_getitem _ _ _ _ _ _ Hsch), (get_schema_getitem _ _ _ _ _ _ Hsch').
  by rewrite (bool_decide_ext _ _ (Hsame k)).
Qed.

Lemma X12_witness :
  ∃ sch sch',
    outcome (get_schema nested_lookup "docs" ["properties.age"; "properties.tag"] ages)
    = Ok sch
    ∧ outcome (get_schema nested_lookup "docs"
                 ["properties.tag"; "properties.age"; "properties.tag"] ages) = Ok sch'
    ∧ getitem (fields sch) "properties.age" = getitem (fields sch') "properties.age".
Proof.
  eexists _, _. split; [apply get_schema_outcome|]. split; [apply get_schema_outcome|].
  apply (X12_entries_do_not_depend_on_listing_order nested_lookup "docs"
           ["properties.age"; "properties.tag"]
           ["properties.tag"; "properties.age"; "properties.tag"] ages);
    [|apply get_schema_outcome|apply get_schema_outcome].
  intros k. rewrite !elem_of_cons. rewrite !elem_of_nil. tauto.
Defined.

(** ** What the examples and the type of an entry look like *)

Lemma str_list_text v : type v = TList -> list_text (str v).
Proof. destruct v; try done. intros _. by eexists. Qed.

Lemma type_not_none v : is_none v = false -> type v ≠ TNoneType.
Proof. by destruct v. Qed.

Lemma well_typed_fresh : well_typed fresh.
Proof. by repeat split. Qed.

Lemma observe_well_typed key v l l' :
  well_typed l -> is_none v = false -> outcome (observe key v l) = Ok l' ->
  well_typed l'.
Proof.
  intros (Hunset & Hnone & Hlist) Hv.
  pose proof (type_not_none v Hv) as Htype.
  assert (Hadd : ∀ (x : string) (X : gset string),
             list_text x -> (∀ y, y ∈ X -> list_text y) ->
             ∀ y, y ∈ ({[x]} ∪ X : gset string) -> list_text y).
  { intros x X Hx HX y [->%elem_of_singleton|Hy]%elem_of_union; auto. }
  unfold well_typed, observe. destruct (sample_type l) as [cur|] eqn:Hcur.
  - destruct (decide _) as [[-> Hf]|_].
    { simpl. intros [= <-]. simpl. rewrite Hf. by repeat split. }
    destruct (decide _) as [[-> Hi]|_].
    { simpl. intros [= <-]. simpl. rewrite Hcur. by repeat split. }
    destruct (decide _) as [[-> Hnl]|Hwrap].
    { simpl. intros [= <-]. simpl. rewrite Hcur. repeat split; try done. intros _.
      apply Hadd; [by eexists|by apply Hlist]. }
    destruct (decide _) as [[Hnl Hl]|Hup].
    { simpl. intros [= <-]. simpl. rewrite Hl. repeat split; try done. intros _.
      apply Hadd; [by apply str_list_text|].
      intros y (x & -> & _)%elem_of_map. by eexists. }
    destruct (decide _) as [Hne|Heq].
    { destruct (decide _); simpl; intros [= <-]; simpl; by repeat split. }
    simpl. intros [= <-]. simpl. rewrite Hcur.
    apply dec_stable in Heq. subst cur.
    repeat split; try done. intros [= Hl].
    apply Hadd; [by apply str_list_text|by apply Hlist; rewrite Hl].
  - simpl. intros [= <-]. simpl. repeat split; try done.
    + by intros [= ?].
    + intros [= Hl]. rewrite (Hunset eq_refl).
      apply Hadd; [by apply str_list_text|]. intros y Hy. by apply elem_of_empty in Hy.
Qed.

Lemma walk_well_typed dotted_lookup key random_sample l :
  outcome (walk dotted_lookup key random_sample fresh) = Ok l -> well_typed l.
Proof.
  apply (walk_preserves dotted_lookup well_typed key); [|apply well_typed_fresh].
  intros v l0 l1 H0 _ Hv. by apply observe_well_typed.
Qed.

Lemma str_type_list t : str_opt_type t = "<class 'list'>" -> t = Some TList.
Proof. by destruct t as [[]|]. Qed.

Lemma get_schema_entry_origin dotted_lookup index mapping_keys random_sample sch key field :
  outcome (get_schema dotted_lookup index mapping_keys random_sample) = Ok sch ->
  getitem (fields sch) key = Some field ->
  field = text_representation_field
  ∨ ∃ l, outcome (walk dotted_lookup key random_sample fresh) = Ok l
         ∧ samples l ≠ ∅ ∧ field = sampled_field l.
Proof.
  intros Hsch. rewrite (get_schema_getitem _ _ _ _ _ _ Hsch).
  destruct (_ && _); [destruct (contribution _ _ _) as [field'|] eqn:Hc|].
  - intros [= <-]. right. by apply contribution_Some in Hc.
  - destruct (decide _); [|done]. intros [= <-]. by left.
  - destruct (decide _); [|done]. intros [= <-]. by left.
Qed.

(** X13. The type written in an entry of the returned schema is never the
    text of an unset type, ["None"], nor the class of [None]: an entry is
    stored only once a value that is not [None] has set the type. *)
Theorem X13_field_type_is_never_none
    (dotted_lookup : pyval -> string -> result pyval) (index : string)
    (mapping_keys : list string) (random_sample : list (dict pyval))
    (sch : OpenSearchSchema) (key : string) (field : SchemaField) :
  outcome (get_schema dotted_lookup index mapping_keys random_sample) = Ok sch ->
  getitem (fields sch) key = Some field ->
  field_type field ≠ "None" ∧ field_type field ≠ "<class 'NoneType'>".
Proof.
  intros Hsch Hfield.
  destruct (get_schema_entry_origin dotted_lookup index mapping_keys random_sample
              sch key field Hsch Hfield) as [->|(l & Hl & Hne & ->)]; [done|].
  destruct (walk_well_typed _ _ _ _ Hl) as (Hunset & Hnone & _). simpl.
  destruct (sample_type l) as [[]|] eqn:Ht; simpl; try done.
  by specialize (Hunset eq_refl).
Qed.

Lemma X13_witness :
  ∃ sch,
    outcome (get_schema nested_lookup "docs" ["properties.x"] widening_run) = Ok sch
    ∧ getitem (fields sch) "properties.x"
      = Some (mkSchemaField "default" "<class 'list'>" None
                (Some (elements ({["['1']"; "['2.5']"; "['foo']"; "['b']"]} : gset string))))
    ∧ "<class 'list'>" ≠ "None" ∧ "<class 'list'>" ≠ "<class 'NoneType'>".
Proof.
  exists (mkOpenSearchSchema
            (fold_left (record_key nested_lookup widening_run) ["properties.x"] seed)).
  assert (Hsch : outcome (get_schema nested_lookup "docs" ["properties.x"] widening_run)
                 = Ok (mkOpenSearchSchema
                         (fold_left (record_key nested_lookup widening_run)
                            ["properties.x"] seed)))
    by apply get_schema_outcome.
  assert (Hfield : getitem (fold_left (record_key nested_lookup widening_run)
                              ["properties.x"] seed) "properties.x"
                   = Some (mkSchemaField "default" "<class 'list'>" None
                             (Some (elements ({["['1']"; "['2.5']"; "['foo']"; "['b']"]}
                                              : gset string)))))
    by (vm_compute; reflexivity).
  split; [done|]. split; [done|].
  exact (X13_field_type_is_never_none nested_lookup "docs" ["properties.x"]
           widening_run _ "properties.x" _ Hsch Hfield).
Defined.

(** X14. When the type of an entry is [<class 'list'>], every one of its
    examples is the text of a list: it starts with an opening and ends with a
    closing bracket, also the examples gathered before the type became
    [list]. *)
Theorem X14_examples_of_a_list_field_are_list_texts
    (dotted_lookup : pyval -> string -> result pyval) (index : string)
    (mapping_keys : list string) (random_sample : list (dict pyval))
    (sch : OpenSearchSchema) (key : string) (field : SchemaField) (ex : list string) :
  outcome (get_schema dotted_lookup index mapping_keys random_sample) = Ok sch ->
  getitem (fields sch) key = Some field ->
  field_type field = "<class 'list'>" ->
  examples field = Some ex ->
  ∀ x, x ∈ ex -> ∃ body, x = "[" +:+ body +:+ "]".
Proof.
  intros Hsch Hfield Htype Hex.
  destruct (get_schema_entry_origin dotted_lookup index mapping_keys random_sample
              sch key field Hsch Hfield) as [->|(l & Hl & Hne & ->)]; [done|].
  simpl in Htype, Hex. injection Hex as <-.
  apply str_type_list in Htype.
  destruct (walk_well_typed _ _ _ _ Hl) as (_ & _ & Hlist).
  intros x Hx. apply (Hlist Htype x). by apply elem_of_elements.
Qed.

Lemma X14_witness :
  ∃ sch,
    outcome (get_schema nested_lookup "docs" ["properties.x"] widening_run) = Ok sch
    ∧ getitem (fields sch) "properties.x"
      = Some (mkSchemaField "default" "<class 'list'>" None
                (Some (elements ({["['1']"; "['2.5']"; "['foo']"; "['b']"]} : gset string))))
    ∧ ∀ x, x ∈ elements ({["['1']"; "['2.5']"; "['foo']"; "['b']"]} : gset string) ->
           ∃ body, x = "[" +:+ body +:+ "]".
Proof.
  exists (mkOpenSearchSchema
            (fold_left (record_key nested_lookup widening_run) ["properties.x"] seed)).
  assert (Hsch : outcome (get_schema nested_lookup "docs" ["properties.x"] widening_run)
                 = Ok (mkOpenSearchSchema
                         (fold_left (record_key nested_lookup widening_run)
                            ["properties.x"] seed)))
    by apply get_schema_outcome.
  assert (Hfield : getitem (fold_left (record_key nested_lookup widening_run)
                              ["properties.x"] seed) "properties.x"
                   = Some (mkSchemaField "default" "<class 'list'>" None
                             (Some (elements ({["['1']"; "['2.5']"; "['foo']"; "['b']"]}
                                              : gset string)))))
    by (vm_compute; reflexivity).
  split; [done|]. split; [done|].
  exact (X14_examples_of_a_list_field_are_list_texts nested_lookup "docs"
           ["properties.x"] widening_run _ "properties.x" _ _ Hsch Hfield eq_refl eq_refl).
Defined.

(** ** The type only widens *)

Lemma widens_refl t : widens t t = true.
Proof. by destruct t. Qed.

Lemma widens_trans a b c : widens a b = true -> widens b c = true -> widens a c = true.
Proof. by destruct a, b, c. Qed.

Lemma widens_antisym a b : widens a b = true -> widens b a = true -> a = b.
Proof. by destruct a, b. Qed.

Lemma widens_opt_refl t : widens_opt t t = true.
Proof. destruct t; [apply widens_refl|done]. Qed.

Lemma widens_opt_trans a b c :
  widens_opt a b = true -> widens_opt b c = true -> widens_opt a c = true.
Proof. destruct a, b, c; try done. apply widens_trans. Qed.

Lemma widens_opt_antisym a b : widens_opt a b = true -> widens_opt b a = true -> a = b.
Proof.
  destruct a, b; try done. simpl. intros Hab Hba. f_equal. by apply widens_antisym.
Qed.

Lemma observe_widens key v l l' :
  outcome (observe key v l) = Ok l' ->
  widens_opt (sample_type l) (sample_type l') = true.
Proof.
  unfold observe. destruct (sample_type l) as [cur|] eqn:Hcur; [|done].
  destruct (decide _) as [[-> Hf]|_].
  { simpl. intros [= <-]. simpl. by rewrite Hf. }
  destruct (decide _) as [[-> Hi]|_].
  { simpl. intros [= <-]. simpl. by rewrite Hcur. }
  destruct (decide _) as [[-> Hnl]|Hwrap].
  { simpl. intros [= <-]. simpl. by rewrite Hcur. }
  destruct (decide _) as [[Hnl Hl]|Hup].
  { simpl. intros [= <-]. simpl. rewrite Hl. by destruct cur. }
  destruct (decide _) as [Hne|Heq].
  { assert (cur ≠ TList).
    { intros ->. apply Hwrap. split; [done|]. intros Hv. apply Hne. by rewrite Hv. }
    destruct (decide _); simpl; intros [= <-]; simpl; by destruct cur. }
  simpl. intros [= <-]. simpl. rewrite Hcur. apply widens_refl.
Qed.

(** X15. Upgrade monotonicity as the code has it.  Order the types by:
    unset below every type, [int] below [float], every type but [list] below
    [str], every type below [list].  Then the type a walk has reached after
    part of the sample is below or equal to the type it returns after the
    whole sample, and the order has no way back: if the later type is also
    below the earlier one, they are equal. *)
Theorem X15_type_only_widens
    (dotted_lookup : pyval -> string -> result pyval) (key : string)
    (before after : list (dict pyval)) (l l' : locals) :
  outcome (walk dotted_lookup key before fresh) = Ok l ->
  outcome (walk dotted_lookup key (before ++ after) fresh) = Ok l' ->
  widens_opt (sample_type l) (sample_type l') = true
  ∧ (widens_opt (sample_type l') (sample_type l) = true -> sample_type l' = sample_type l).
Proof.
  intros Hl. rewrite walk_app, outcome_bind, Hl. intros Hl'.
  assert (Hup : widens_opt (sample_type l) (sample_type l') = true).
  { apply (walk_preserves dotted_lookup
             (fun l1 => widens_opt (sample_type l) (sample_type l1) = true) key)
      with (random_sample := after) (l := l); [|apply widens_opt_refl|done].
    intros v l0 l1 H0 _ _ Hobs.
    eapply widens_opt_trans; [exact H0|by eapply observe_widens]. }
  split; [done|]. intros Hdown. by apply widens_opt_antisym.
Qed.

Lemma X15_witness :
  ∃ l l',
    outcome (walk nested_lookup "properties.x" (take 2 widening_run) fresh) = Ok l
    ∧ outcome (walk nested_lookup "properties.x"
                 (take 2 widening_run ++ drop 2 widening_run) fresh) = Ok l'
    ∧ sample_type l = Some TFloat ∧ sample_type l' = Some TList
    ∧ widens_opt (sample_type l) (sample_type l') = true.
Proof.
  destruct (outcome (walk nested_lookup "properties.x" (take 2 widening_run) fresh))
    as [l|] eqn:Hl; [|by vm_compute in Hl].
  destruct (outcome (walk nested_lookup "properties.x"
                       (take 2 widening_run ++ drop 2 widening_run) fresh))
    as [l'|] eqn:Hl'; [|by vm_compute in Hl'].
  exists l, l'. split; [done|]. split; [done|].
  split; [vm_compute in Hl; by injection Hl as <-|].
  split; [vm_compute in Hl'; by injection Hl' as <-|].
  by apply (X15_type_only_widens nested_lookup "properties.x" (take 2 widening_run)
              (drop 2 widening_run) l l' Hl Hl').
Defined.

(** ** What a run logs at warning level *)

Lemma observe_records key v l r :
  r ∈ logged (observe key v l) ->
  ∃ T U, r = LogRecord WARNING (conflict_message key T U) ∧ conflicting T U.
Proof.
  unfold observe. destruct (sample_type l) as [cur|] eqn:Hcur.
  2: { simpl. by intros ?%elem_of_nil. }
  destruct (decide _) as [|Hif]; [simpl; by intros ?%elem_of_nil|].
  destruct (decide _) as [|Hfi]; [simpl; by intros ?%elem_of_nil|].
  destruct (decide _) as [|Hwrap]; [simpl; by intros ?%elem_of_nil|].
  destruct (decide _) as [|Hup]; [simpl; by intros ?%elem_of_nil|].
  destruct (decide _) as [Hne|]; [|simpl; by intros ?%elem_of_nil].
  destruct (decide _); simpl; [|by intros ?%elem_of_nil].
  intros ->%list_elem_of_singleton. exists cur, (type v). split; [done|].
  assert (Hcl : cur ≠ TList).
  { intros ->. apply Hwrap. split; [done|]. intros Hv. apply Hne. by rewrite Hv. }
  repeat split; try done. intros Hv. apply Hup. by split.
Qed.

Section RunRecords.

Variable dotted_lookup : pyval -> string -> result pyval.

Lemma walk_records key random_sample l r :
  r ∈ logged (walk dotted_lookup key random_sample l) ->
  ∃ T U, r = LogRecord WARNING (conflict_message key T U) ∧ conflicting T U.
Proof.
  revert l. induction random_sample as [|sample rest IH]; intros l.
  { simpl. by intros ?%elem_of_nil. }
  rewrite walk_cons. destruct (decide _); [simpl; by intros ?%elem_of_nil|].
  destruct (resolved dotted_lookup key sample) as [v|];
    [|simpl; by intros ?%elem_of_nil].
  destruct (is_none v); [apply IH|].
  rewrite logged_bind. intros [Hr|Hr]%elem_of_app.
  - by apply observe_records in Hr.
  - destruct (outcome (observe key v l)) as [l1|]; [by apply IH in Hr|].
    by apply elem_of_nil in Hr.
Qed.

Lemma key_log_records random_sample key r :
  r ∈ key_log dotted_lookup random_sample key -> levelname r = WARNING ->
  eligible key = true
  ∧ ∃ T U, r = LogRecord WARNING (conflict_message key T U) ∧ conflicting T U.
Proof.
  destruct (eligible key) eqn:Hkey.
  - destruct (key_log_eligible dotted_lookup random_sample key Hkey) as [msg ->].
    intros [->|[Hr| ->%list_elem_of_singleton]%elem_of_app]%elem_of_cons Hlevel;
      try done.
    split; [done|]. by apply walk_records in Hr.
  - destruct (key_log_ineligible dotted_lookup random_sample key Hkey) as [msg ->].
    by intros ->%list_elem_of_singleton Hlevel.
Qed.

Lemma count_warnings_keys random_sample mapping_keys :
  count_warnings (List.concat (map (key_log dotted_lookup random_sample) mapping_keys))
  ≤ List.length (List.filter eligible mapping_keys).
Proof.
  induction mapping_keys as [|key rest IH]; simpl; [done|].
  rewrite count_warnings_app, count_warnings_key_log.
  pose proof (walk_warnings_bound dotted_lookup key random_sample fresh).
  destruct (eligible key); simpl; lia.
Qed.

End RunRecords.

(** X16. Every record [get_schema] logs at warning level is the message
    of a type conflict for an eligible key of the listing, naming two types
    that disagree outside the pairs integer/float and list/non-list; and a
    run logs at most as many warnings as the listing has eligible keys. *)
Theorem X16_warnings_are_type_conflicts_of_eligible_keys
    (dotted_lookup : pyval -> string -> result pyval) (index : string)
    (mapping_keys : list string) (random_sample : list (dict pyval)) :
  count_warnings (logged (get_schema dotted_lookup index mapping_keys random_sample))
  ≤ List.length (List.filter eligible mapping_keys)
  ∧ ∀ r,
      r ∈ logged (get_schema dotted_lookup index mapping_keys random_sample) ->
      levelname r = WARNING ->
      ∃ key T U,
        key ∈ mapping_keys ∧ eligible key = true
        ∧ message r
          = "Got multiple sample types for schema field " +:+ key +:+ ": "
            +:+ str_type T +:+ " and " +:+ str_type U +:+ ". Promoting to str."
        ∧ conflicting T U.
Proof.
  rewrite get_schema_logged. split.
  - change (LogRecord DEBUG ?m :: ?w) with ([LogRecord DEBUG m] ++ w).
    rewrite count_warnings_app, count_warnings_debug. apply count_warnings_keys.
  - intros r [->|Hr]%elem_of_cons Hlevel; [done|].
    apply list_elem_of_In, in_concat in Hr as (w & Hw & Hr).
    apply in_map_iff in Hw as (key & <- & Hkey).
    apply list_elem_of_In in Hr, Hkey.
    destruct (key_log_records _ _ _ _ Hr Hlevel) as (Helig & T & U & -> & Hc).
    exists key, T, U. split; [done|]. split; [done|]. split; [reflexivity|done].
Qed.

Lemma X16_witness :
  ∃ r,
    r ∈ logged (get_schema nested_lookup "docs" ["properties.x"] one_foo)
    ∧ levelname r = WARNING
    ∧ ∃ key T U,
        key ∈ ["properties.x"] ∧ eligible key = true
        ∧ message r
          = "Got multiple sample types for schema field " +:+ key +:+ ": "
            +:+ str_type T +:+ " and " +:+ str_type U +:+ ". Promoting to str."
        ∧ conflicting T U.
Proof.
  exists (LogRecord WARNING (conflict_message "properties.x" TInt TStr)).
  assert (Hr : LogRecord WARNING (conflict_message "properties.x" TInt TStr)
               ∈ logged (get_schema nested_lookup "docs" ["properties.x"] one_foo)).
  { apply list_elem_of_In. vm_compute. tauto. }
  split; [done|]. split; [done|].
  by apply (X16_warnings_are_type_conflicts_of_eligible_keys nested_lookup "docs"
              ["properties.x"] one_foo).
Defined.

(** ** A sample whose values all have one type *)

Lemma observe_known_type key v l :
  sample_type l = Some (type v) ->
  observe key v l = ret (Locals ({[str v]} ∪ samples l) (Some (type v)) (warnings l)).
Proof.
  intros H. unfold observe. rewrite H.
  repeat (destruct (decide _); [exfalso; intuition congruence|]).
  unfold add_sample. by rewrite H.
Qed.

Section Homogeneous.

Variable dotted_lookup : pyval -> string -> result pyval.

Local Abbreviation walk := (walk dotted_lookup).
Local Abbreviation resolved := (resolved dotted_lookup).
Local Abbreviation values := (values dotted_lookup).

Lemma values_cons key sample rest :
  values key (sample :: rest)
  = match resolved key sample with
    | Ok v => if is_none v then values key rest else v :: values key rest
    | KeyError => values key rest
    end.
Proof.
  unfold values. simpl. destruct (resolved key sample) as [v|]; [|done].
  by destruct (is_none v).
Qed.

Lemma values_has_value key random_sample :
  values key random_sample ≠ [] ->
  Exists (fun sample => has_value dotted_lookup key sample = true) random_sample.
Proof.
  induction random_sample as [|sample rest IH]; [done|].
  rewrite values_cons. unfold has_value at 1. intros Hne. apply Exists_cons.
  destruct (resolved key sample) as [v|]; [|right; by apply IH].
  destruct (is_none v); [right; by apply IH|by left].
Qed.

Lemma homogeneous_walk key T random_sample l :
  Forall (fun sample => resolved key sample ≠ KeyError) random_sample ->
  Forall (fun v => type v = T) (values key random_sample) ->
  (sample_type l = None ∧ samples l = ∅) ∨ sample_type l = Some T ->
  ∃ l',
    walk key random_sample l = ret l'
    ∧ samples l ⊆ samples l'
    ∧ (∀ x, x ∈ samples l' ->
            x ∈ samples l ∨ ∃ v, v ∈ values key random_sample ∧ x = str v)
    ∧ (sample_type l = Some T ∨ values key random_sample ≠ [] -> sample_type l' = Some T)
    ∧ (size (samples l) + List.length (values key random_sample) ≤ NUM_EXAMPLE_VALUES ->
       ∀ v, v ∈ values key random_sample -> str v ∈ samples l').
Proof.
  intros Hok. revert l. induction Hok as [|sample rest Hs _ IH]; intros l Htypes Hstate.
  { exists l. split; [done|]. split; [done|]. split; [by left|].
    split; [by intros [?|?]|]. intros _ v Hv. by apply elem_of_nil in Hv. }
  rewrite values_cons in Htypes |- *. rewrite walk_cons.
  destruct (decide _) as [Hcap|Hroom].
  { exists l. split; [done|]. split; [done|]. split; [by left|]. split.
    - intros _. destruct Hstate as [[_ Hempty]|?]; [|done].
      rewrite Hempty, size_empty in Hcap. unfold NUM_EXAMPLE_VALUES in Hcap. lia.
    - intros Hfew v Hv. assert (List.length
        (match resolved key sample with
         | Ok v => if is_none v then values key rest else v :: values key rest
         | KeyError => values key rest
         end) = 0) as Hzero by lia.
      apply length_zero_iff_nil in Hzero. rewrite Hzero in Hv.
      by apply elem_of_nil in Hv. }
  destruct (resolved key sample) as [v|]; [|done].
  destruct (is_none v); [by apply IH|].
  apply Forall_cons in Htypes as [Hv Htypes].
  assert (Hobs : observe key v l
                 = ret (Locals ({[str v]} ∪ samples l) (Some T) (warnings l))).
  { destruct Hstate as [[Hunset _]|Hset].
    - rewrite observe_first; [|done]. by rewrite Hv.
    - rewrite observe_known_type; by rewrite Hv. }
  rewrite Hobs, bind_ret_l.
  destruct (IH (Locals ({[str v]} ∪ samples l) (Some T) (warnings l)) Htypes)
    as (l' & Hwalk & Hsub & Hfrom & Htype & Hall); [by right|].
  simpl in Hsub, Hfrom, Htype, Hall.
  exists l'. split; [done|].
  split; [etrans; [apply union_subseteq_r|exact Hsub]|]. split; [|split].
  - intros x Hx. destruct (Hfrom x Hx) as [[->%elem_of_singleton|?]%elem_of_union|(v' & ? & ->)].
    + right. exists v. split; [by left|done].
    + by left.
    + right. exists v'. split; [by right|done].
  - intros _. apply Htype. by left.
  - simpl. intros Hfew v' Hv'.
    assert (Hgrow : size ({[str v]} ∪ samples l) ≤ S (size (samples l)))
      by apply size_add_le.
    apply elem_of_cons in Hv' as [->|Hv'].
    + by apply Hsub, elem_of_union_l, elem_of_singleton.
    + apply Hall; [lia|done].
Qed.

End Homogeneous.

(** X17. When no lookup fails and every non-null value of an eligible
    listed key has the same type, the entry has that type, no warning is
    logged for the key, and every example is the text of one of the values;
    with at most five values, the text of every value is an example. *)
Theorem X17_values_of_one_type
    (dotted_lookup : pyval -> string -> result pyval) (index : string)
    (mapping_keys : list string) (random_sample : list (dict pyval)) (key : string)
    (T : pytype) :
  eligible key = true -> key ∈ mapping_keys ->
  Forall (fun sample => resolved dotted_lookup key sample ≠ KeyError) random_sample ->
  Forall (fun v => type v = T) (values dotted_lookup key random_sample) ->
  values dotted_lookup key random_sample ≠ [] ->
  ∃ sch ex,
    outcome (get_schema dotted_lookup index mapping_keys random_sample) = Ok sch
    ∧ getitem (fields sch) key
      = Some (mkSchemaField "default" (str_type T) None (Some ex))
    ∧ (∀ x, x ∈ ex -> ∃ v, v ∈ values dotted_lookup key random_sample ∧ x = str v)
    ∧ (List.length (values dotted_lookup key random_sample) ≤ 5 ->
       ∀ v, v ∈ values dotted_lookup key random_sample -> str v ∈ ex)
    ∧ count_warnings (key_log dotted_lookup random_sample key) = 0.
Proof.
  intros Hkey Hin Hok Htypes Hne.
  destruct (homogeneous_walk dotted_lookup key T random_sample fresh Hok Htypes)
    as (l & Hwalk & _ & Hfrom & Htype & Hall); [by left|].
  assert (Hl : outcome (walk dotted_lookup key random_sample fresh) = Ok l)
    by (by rewrite Hwalk).
  assert (Hsome : samples l ≠ ∅).
  { apply size_pos_nonempty.
    apply (walk_finds_value dotted_lookup key random_sample fresh); [|done].
    by apply values_has_value. }
  destruct (get_schema_entry dotted_lookup index mapping_keys random_sample key l
              Hkey Hin Hl Hsome) as (sch & Hsch & Hfield).
  exists sch, (elements (samples l)). split; [done|].
  rewrite Htype in Hfield by (by right). split; [done|]. split; [|split].
  - intros x Hx%elem_of_elements.
    destruct (Hfrom x Hx) as [Hx'|?]; [|done]. by apply elem_of_empty in Hx'.
  - intros Hfew v Hv. apply elem_of_elements. apply Hall; [|done].
    rewrite size_fresh. unfold NUM_EXAMPLE_VALUES. lia.
  - by rewrite count_warnings_key_log, Hkey, Hwalk.
Qed.

Lemma X17_witness :
  values nested_lookup "properties.name" names = [VStr "Ada"; VStr "Bob"; VStr "Ada"]
  ∧ ∃ sch ex,
      outcome (get_schema nested_lookup "docs" ["properties.name"] names) = Ok sch
      ∧ getitem (fields sch) "properties.name"
        = Some (mkSchemaField "default" "<class 'str'>" None (Some ex))
      ∧ "Ada" ∈ ex ∧ "Bob" ∈ ex
      ∧ count_warnings (key_log nested_lookup names "properties.name") = 0.
Proof.
  assert (Hvalues : values nested_lookup "properties.name" names
                    = [VStr "Ada"; VStr "Bob"; VStr "Ada"]) by reflexivity.
  split; [done|].
  destruct (X17_values_of_one_type nested_lookup "docs" ["properties.name"] names
              "properties.name" TStr)
    as (sch & ex & Hsch & Hfield & _ & Hall & Hquiet).
  - reflexivity.
  - by left.
  - repeat constructor; by vm_compute.
  - rewrite Hvalues. by repeat constructor.
  - by rewrite Hvalues.
  - exists sch, ex. split; [done|]. split; [done|].
    rewrite Hvalues in Hall.
    split; [apply (Hall ltac:(simpl; lia) (VStr "Ada")); by left|].
    split; [apply (Hall ltac:(simpl; lia) (VStr "Bob")); right; by left|done].
Defined.
